(** * AquaCrop: rainfall partition and model-parameter finalisation

    A shallow embedding of
    - [aquacrop/solution/rainfall_partition.py] (the curve-number runoff
      kernel), and
    - [aquacrop/initialize/read_model_parameters.py] (soil-depth growth,
      soil-fertility-stress calibration and season scheduling),
    followed by the properties established about them.

    Floating-point values of the numerical kernel are modelled as real
    numbers ([R]), since the kernel uses [exp] and [log]; the floats of the
    set-up code, which are only added and compared, are modelled as
    rationals ([Q]) so that the set-up code can be run.  Both are exact:
    a sum such as [0.2 + 0.1] is [0.3] here and a little more in the
    code, so that a comparison that is decided by the last binary place may
    go the other way there.  Properties that turn on the rounding of
    binary64 arithmetic, as the conservation of the rainfall does, are
    stated on a second rendering of lines 142 to 149 of the kernel over the
    binary64 floats of the proof assistant ([PrimFloat]), where every
    operation rounds as it does in Python. *)

From Stdlib Require Import Reals Lqa Lra Lia ZArith QArith Qround Qabs List Bool String Sorted.
From Stdlib Require PrimFloat FloatAxioms.
Import ListNotations.

(** ** Python exceptions and results *)

Inductive exn : Type :=
| ZeroDivisionError
| IndexError
| ValueError (msg : string)
| AssertionError
| TypeError
| AttributeError.

Inductive result (A : Type) : Type :=
| Ok (a : A)
| Raise (e : exn).

Arguments Ok {A} a.
Arguments Raise {A} e.

(** [l[i] = v] on a Python list or NumPy array, for an index in range. *)
Fixpoint list_set {A : Type} (i : nat) (v : A) (l : list A) : list A :=
  match l, i with
  | [], _ => []
  | _ :: r, O => v :: r
  | x :: r, S j => x :: list_set j v r
  end.

(** ** A state-and-exception monad

    Python code mutates the objects it is handed and may raise at any point;
    a computation threads the state of those objects, and an exception
    leaves the state as it was when raised. *)

Definition St (S A : Type) : Type := S -> result A * S.

Definition ret {S A : Type} (a : A) : St S A := fun s => (Ok a, s).

Definition raise {S A : Type} (e : exn) : St S A := fun s => (Raise e, s).

Definition bind {S A B : Type} (m : St S A) (k : A -> St S B) : St S B :=
  fun s => match m s with
           | (Ok a, s') => k a s'
           | (Raise e, s') => (Raise e, s')
           end.

Definition gets {S A : Type} (f : S -> A) : St S A := fun s => (Ok (f s), s).

Definition modify {S : Type} (f : S -> S) : St S unit := fun s => (Ok tt, f s).

(** A fallible computation that touches no state. *)
Definition lift {S A : Type} (r : result A) : St S A := fun s => (r, s).

Notation "x <- m ;; k" := (bind m (fun x => k))
  (at level 61, m at next level, right associativity).

Notation "m ;;; k" := (bind m (fun _ => k))
  (at level 61, right associativity).

(** ** [rainfall_partition.py] *)

Module RainfallPartition.

Local Open Scope R_scope.

(** The fields of the soil-profile tuple that the kernel touches. *)
Record SoilProfile : Type := mkProfile {
  dzsum : list R;
  th_wp : list R;
  th_fc : list R
}.

(** The kernel assigns into [prof.dzsum], an array shared with the caller:
    computations thread the profile. *)
Definition M (A : Type) : Type := St SoilProfile A.

(** Array reads; an index past the end is an [IndexError]. *)
Definition index (l : list R) (ii : nat) : M R :=
  match nth_error l ii with
  | Some v => ret v
  | None => raise IndexError
  end.

Definition get_dzsum (ii : nat) : M R := fun p => index (dzsum p) ii p.

Definition get_th_wp (ii : nat) : M R := fun p => index (th_wp p) ii p.

Definition get_th_fc (ii : nat) : M R := fun p => index (th_fc p) ii p.

(** [prof.dzsum[ii] = v] *)
Definition set_dzsum (ii : nat) (v : R) : M unit :=
  fun p => if Nat.ltb ii (List.length (dzsum p))
           then (Ok tt, mkProfile (list_set ii v (dzsum p)) (th_wp p) (th_fc p))
           else (Raise IndexError, p).

(** Float division; a zero divisor raises, as it does for Python floats and
    under the Python error model of the compiled kernel. *)
Definition div (a b : R) : M R :=
  if Req_dec_T b 0 then raise ZeroDivisionError else ret (a / b).

(** [round(x)] on a float: nearest integer, halves to the even one. *)
Definition round (x : R) : Z :=
  let f := Int_part x in
  if Rlt_dec (frac_part x) (1 / 2) then f
  else if Rlt_dec (1 / 2) (frac_part x) then (f + 1)%Z
  else if Z.even f then f else (f + 1)%Z.

(** [int(x)] on a float: truncation towards zero. *)
Definition int (x : R) : Z :=
  if Rle_dec 0 x then Int_part x else (- Int_part (- x))%Z.

(** [prof.dzsum[prof.dzsum >= Soil_zCN].shape[0]] *)
Definition count_ge (zCN : R) (l : list R) : nat :=
  List.length (filter (fun d => if Rge_dec d zCN then true else false) l).

Definition comp_sto_of (Soil_nComp Soil_zCN : R) (dz : list R) : Z :=
  match count_ge Soil_zCN dz with
  | O => int Soil_nComp
  | n => int (Soil_nComp - INR n)
  end.

(** [np.zeros(n)]; a negative dimension is refused. *)
Definition np_zeros (n : Z) : M (list R) :=
  if Z.ltb n 0 then raise (ValueError "negative dimensions are not allowed"%string)
  else ret (repeat 0 (Z.to_nat n)).

(** [range(n)] *)
Definition range (n : Z) : list nat := seq 0 (Z.to_nat n).

(** First loop: weighting factors by compartment.  The accumulator is
    [(xx, wrel)]. *)
Fixpoint weighting_loop (Soil_zCN : R) (idx : list nat) (xx : R) (wrel : list R)
  : M (R * list R) :=
  match idx with
  | [] => ret (xx, wrel)
  | ii :: rest =>
      d <- get_dzsum ii ;;
      (if Rgt_dec d Soil_zCN then set_dzsum ii Soil_zCN else ret tt) ;;;
      d' <- get_dzsum ii ;;
      q <- div d' Soil_zCN ;;
      let wx := 1.016 * (1 - exp (- 4.16 * q)) in
      let w := wx - xx in
      let w := if Rlt_dec w 0 then 0 else if Rgt_dec w 1 then 1 else w in
      weighting_loop Soil_zCN rest wx (list_set ii w wrel)
  end.

(** Second loop: relative wetness of the top soil. *)
Fixpoint wetness_loop (InitCond_th wrel : list R) (idx : list nat) (wet_top : R)
  : M R :=
  match idx with
  | [] => ret wet_top
  | ii :: rest =>
      wp <- get_th_wp ii ;;
      th0 <- index InitCond_th ii ;;
      let th := Rmax wp th0 in
      w <- index wrel ii ;;
      wp1 <- get_th_wp ii ;;
      fc <- get_th_fc ii ;;
      wp2 <- get_th_wp ii ;;
      q <- div (th - wp1) (fc - wp2) ;;
      wetness_loop InitCond_th wrel rest (wet_top + w * q)
  end.

(** The antecedent-moisture adjustment of the curve number. *)
Definition moisture_adjusted_CN (InitCond_th : list R)
  (Soil_zCN Soil_nComp CN : R) : M R :=
  let CNbot := round (1.4 * exp (- 14 * ln 10) + 0.507 * CN
                      - 0.00374 * CN ^ 2 + 0.0000867 * CN ^ 3) in
  let CNtop := round (5.6 * exp (- 14 * ln 10) + 2.33 * CN
                      - 0.0209 * CN ^ 2 + 0.000076 * CN ^ 3) in
  fun p =>
    let comp_sto := comp_sto_of Soil_nComp Soil_zCN (dzsum p) in
    (wrel0 <- np_zeros comp_sto ;;
     xw <- weighting_loop Soil_zCN (range comp_sto) 0 wrel0 ;;
     wet <- wetness_loop InitCond_th (snd xw) (range comp_sto) 0 ;;
     let wet_top := if Rgt_dec wet 1 then 1 else if Rlt_dec wet 0 then 0 else wet in
     ret (IZR (round (IZR CNbot + (IZR CNtop - IZR CNbot) * wet_top)))) p.

(** The curve number that enters the retention formula. *)
Definition adjusted_CN (InitCond_th : list R)
  (FieldMngt_CNadjPct Soil_CN Soil_AdjCN Soil_zCN Soil_nComp : R) : M R :=
  let CN := Soil_CN * (1 + FieldMngt_CNadjPct / 100) in
  if Req_dec_T Soil_AdjCN 1
  then moisture_adjusted_CN InitCond_th Soil_zCN Soil_nComp CN
  else ret CN.

(** [S = (25400 / CN) - 254] *)
Definition retention (CN : R) : M R :=
  q <- div 25400 CN ;;
  ret (q - 254).

(** Partition of the rainfall for a given curve number. *)
Definition partition (precipitation CN : R) : M (R * R) :=
  S <- retention CN ;;
  let term := precipitation - (5 / 100) * S in
  if Rle_dec term 0
  then ret (0, precipitation)
  else
    Runoff <- div (term ^ 2) (precipitation + (1 - 5 / 100) * S) ;;
    ret (Runoff, precipitation - Runoff).

(** The guard of the curve-number branch. *)
Definition runoff_allowed (FieldMngt_SRinhb FieldMngt_Bunds FieldMngt_zBund : R)
  : bool :=
  (if Req_dec_T FieldMngt_SRinhb 0 then true else false)
  && ((if Req_dec_T FieldMngt_Bunds 0 then true else false)
      || (if Rlt_dec FieldMngt_zBund 0.001 then true else false)).

Definition rainfall_partition
  (precipitation : R) (InitCond_th : list R) (NewCond_DaySubmerged : Z)
  (FieldMngt_SRinhb FieldMngt_Bunds FieldMngt_zBund FieldMngt_CNadjPct
   Soil_CN Soil_AdjCN Soil_zCN Soil_nComp : R) : M (R * R * Z) :=
  if runoff_allowed FieldMngt_SRinhb FieldMngt_Bunds FieldMngt_zBund
  then
    let NewCond_DaySubmerged := 0%Z in
    CN <- adjusted_CN InitCond_th FieldMngt_CNadjPct Soil_CN Soil_AdjCN
            Soil_zCN Soil_nComp ;;
    ri <- partition precipitation CN ;;
    ret (fst ri, snd ri, NewCond_DaySubmerged)
  else
    ret (0, precipitation, NewCond_DaySubmerged).

(** *** Vocabulary and example inputs of the properties *)

(** A profile without compartments, for calls that do not look at it. *)
Definition empty_profile : SoilProfile := mkProfile [] [] [].

(** A computation that hands the profile on as it received it, whether it
    returns or raises. *)
Definition unchanged {A : Type} (m : M A) : Prop := forall p, snd (m p) = p.

(** No index of [idx] holds a cumulative depth beyond [zCN]. *)
Definition no_clamp (zCN : R) (idx : list nat) (p : SoilProfile) : Prop :=
  forall ii d, In ii idx -> nth_error (dzsum p) ii = Some d -> ~ d > zCN.

(** Settle a comparison of concrete reals. *)
Ltac decide_R :=
  match goal with
  | |- context [Rgt_dec ?a ?b] =>
      first [ destruct (Rgt_dec a b) as [? | ?]; [lra |]
            | destruct (Rgt_dec a b) as [? | ?]; [| lra] ]
  | |- context [Rge_dec ?a ?b] =>
      first [ destruct (Rge_dec a b) as [? | ?]; [lra |]
            | destruct (Rge_dec a b) as [? | ?]; [| lra] ]
  | |- context [Req_dec_T ?a ?b] =>
      first [ destruct (Req_dec_T a b) as [? | ?]; [lra |]
            | destruct (Req_dec_T a b) as [? | ?]; [| lra] ]
  | |- context [Rle_dec ?a ?b] =>
      first [ destruct (Rle_dec a b) as [? | ?]; [lra |]
            | destruct (Rle_dec a b) as [? | ?]; [| lra] ]
  end.

(** Two compartments, 0.1 and 0.5 deep in total, with wilting point 0.1 and
    field capacity 0.3. *)
Definition clamped_profile : SoilProfile :=
  mkProfile [0.1; 0.5] [0.1; 0.1] [0.3; 0.3].

(** *** Further vocabulary *)

(** The two bounds of the moisture adjustment, [CNbot] and [CNtop], for the
    curve number [CN] left by the field-management adjustment. *)
Definition CNbot_of (CN : R) : Z :=
  round (1.4 * exp (- 14 * ln 10) + 0.507 * CN
         - 0.00374 * CN ^ 2 + 0.0000867 * CN ^ 3).

Definition CNtop_of (CN : R) : Z :=
  round (5.6 * exp (- 14 * ln 10) + 2.33 * CN
         - 0.0209 * CN ^ 2 + 0.000076 * CN ^ 3).

(** What a call may do to a cumulative depth: leave it, or lower it to
    [zCN] when it lay beyond. *)
Definition lowered (zCN d d' : R) : Prop := d' = d \/ (d > zCN /\ d' = zCN).

(** A profile and water contents of matching lengths, with field capacity
    different from wilting point in every compartment. *)
Definition well_formed (th : list R) (nComp : R) (p : SoilProfile) : Prop :=
  nComp = INR (List.length (dzsum p)) /\
  List.length (th_wp p) = List.length (dzsum p) /\
  List.length (th_fc p) = List.length (dzsum p) /\
  List.length th = List.length (dzsum p) /\
  (forall ii wp fc,
     nth_error (th_wp p) ii = Some wp -> nth_error (th_fc p) ii = Some fc ->
     fc <> wp).

End RainfallPartition.

(** ** Lines 142 to 149 of [rainfall_partition.py] in binary64

    The partition of the rainfall for a given curve number, with the
    arithmetic of the source: every [+], [-], [*] and [/] is the binary64
    operation, rounded to nearest.  [term ** 2] is the product
    [term * term], which is what the compiled kernel computes and what a
    correctly rounded power gives.  A zero divisor raises, as it does for
    Python floats. *)

Module RainfallPartition64.

Import PrimFloat.

Local Open Scope float_scope.




End RainfallPartition64.

(** ** [read_model_parameters.py] *)

Module ReadModelParameters.

Local Open Scope Z_scope.

(** *** Dates

    Time stamps are calendar dates; the day/month strings of the crop
    ("MM/DD") are kept as the pair they denote. *)

Record Date : Type := mkDate { year : Z; month : Z; day : Z }.

Record MonthDay : Type := mkMonthDay { md_month : Z; md_day : Z }.

Definition date_ltb (a b : Date) : bool :=
  (year a <? year b)
  || ((year a =? year b)
      && ((month a <? month b)
          || ((month a =? month b) && (day a <? day b)))).

Definition date_eqb (a b : Date) : bool :=
  (year a =? year b) && (month a =? month b) && (day a =? day b).

Definition date_leb (a b : Date) : bool := date_ltb a b || date_eqb a b.

Definition is_leap (y : Z) : bool :=
  ((y mod 4 =? 0) && negb (y mod 100 =? 0)) || (y mod 400 =? 0).

Definition days_in_month (y m : Z) : Z :=
  if m =? 2 then (if is_leap y then 29 else 28)
  else if (m =? 4) || (m =? 6) || (m =? 9) || (m =? 11) then 30
  else 31.

Definition valid_date (y m d : Z) : bool :=
  (1 <=? m) && (m <=? 12) && (1 <=? d) && (d <=? days_in_month y m).

(** [pd.to_datetime(str(y) + "/" + md)]; a date that does not exist is
    refused. *)
Definition to_datetime (y : Z) (md : MonthDay) : result Date :=
  if valid_date y (md_month md) (md_day md)
  then Ok (mkDate y (md_month md) (md_day md))
  else Raise (ValueError "day is out of range for month"%string).

Definition next_day (d : Date) : Date :=
  if day d <? days_in_month (year d) (month d)
  then mkDate (year d) (month d) (day d + 1)
  else if month d <? 12 then mkDate (year d) (month d + 1) 1
  else mkDate (year d + 1) 1 1.

Definition prev_day (d : Date) : Date :=
  if 1 <? day d then mkDate (year d) (month d) (day d - 1)
  else if 1 <? month d
  then mkDate (year d) (month d - 1) (days_in_month (year d) (month d - 1))
  else mkDate (year d - 1) 12 31.

(** [d + np.timedelta64(n, "D")] *)
Definition add_days (d : Date) (n : Z) : Date :=
  match n with
  | Z0 => d
  | Zpos p => Pos.iter next_day d p
  | Zneg p => Pos.iter prev_day d p
  end.

(** [list(range(a, b))] *)
Definition range (a b : Z) : list Z :=
  map (fun i => a + Z.of_nat i) (seq 0 (Z.to_nat (b - a))).

(** *** Records *)

(** The soil object: the [dz] and [dzsum] columns of its profile and the
    total depth. *)
Record Soil : Type := mkSoil {
  dz : list Q;
  dzsum : list Q;
  zSoil : Q
}.

Record Crop : Type := mkCrop {
  Name : string;
  Zmax : Q;
  CalendarType : Z;
  need_calib : Z;
  sfertstress : Q;
  MaturityCD : Z;
  planting_date : MonthDay;
  harvest_date : MonthDay;
  sf_es : list Q;
  Ksexpf_es : list Q;
  fcdecline_es : list Q;
  Kswp_es : list Q;
  Ksccx_es : list Q;
  relbio_es : list Q;
  Ksccx : Q;
  Ksexpf : Q;
  Kswp : Q;
  fcdecline : Q
}.

Record ClockStruct : Type := mkClock {
  simulation_start_date : Date;
  simulation_end_date : Date;
  step_start_time : Date;
  time_span : list Date;
  planting_dates : list Date;
  harvest_dates : list Date;
  n_seasons : Z;
  season_counter : Z
}.

(** The parameter object.  Its [Soil] and [CropList[0]] attributes are the
    soil and crop objects themselves, not copies: they are read from the
    state. *)
Record ParamStruct : Type := mkParam {
  NCrops : Z;
  co2_data_processed : list (Z * Q);
  CropChoices : list string
}.

(** The objects [read_model_parameters] works on. *)
Record State : Type := mkState {
  clock_struct : ClockStruct;
  soil : Soil;
  crop : Crop;
  param_struct : ParamStruct
}.

Definition with_crop (f : Crop -> Crop) (s : State) : State :=
  mkState (clock_struct s) (soil s) (f (crop s)) (param_struct s).

Definition with_clock (f : ClockStruct -> ClockStruct) (s : State) : State :=
  mkState (f (clock_struct s)) (soil s) (crop s) (param_struct s).

Definition with_param (f : ParamStruct -> ParamStruct) (s : State) : State :=
  mkState (clock_struct s) (soil s) (crop s) (f (param_struct s)).

(** Attribute assignments [crop.x = v]. *)
Definition set_Ksccx (v : Q) (c : Crop) : Crop :=
  mkCrop (Name c) (Zmax c) (CalendarType c) (need_calib c) (sfertstress c)
    (MaturityCD c) (planting_date c) (harvest_date c) (sf_es c)
    (Ksexpf_es c) (fcdecline_es c) (Kswp_es c) (Ksccx_es c) (relbio_es c) v
    (Ksexpf c) (Kswp c) (fcdecline c) .

Definition set_Ksexpf (v : Q) (c : Crop) : Crop :=
  mkCrop (Name c) (Zmax c) (CalendarType c) (need_calib c) (sfertstress c)
    (MaturityCD c) (planting_date c) (harvest_date c) (sf_es c)
    (Ksexpf_es c) (fcdecline_es c) (Kswp_es c) (Ksccx_es c) (relbio_es c)
    (Ksccx c) v (Kswp c) (fcdecline c) .

Definition set_Kswp (v : Q) (c : Crop) : Crop :=
  mkCrop (Name c) (Zmax c) (CalendarType c) (need_calib c) (sfertstress c)
    (MaturityCD c) (planting_date c) (harvest_date c) (sf_es c)
    (Ksexpf_es c) (fcdecline_es c) (Kswp_es c) (Ksccx_es c) (relbio_es c)
    (Ksccx c) (Ksexpf c) v (fcdecline c) .

Definition set_fcdecline (v : Q) (c : Crop) : Crop :=
  mkCrop (Name c) (Zmax c) (CalendarType c) (need_calib c) (sfertstress c)
    (MaturityCD c) (planting_date c) (harvest_date c) (sf_es c)
    (Ksexpf_es c) (fcdecline_es c) (Kswp_es c) (Ksccx_es c) (relbio_es c)
    (Ksccx c) (Ksexpf c) (Kswp c) v.

Definition set_sf_es (v : list Q) (c : Crop) : Crop :=
  mkCrop (Name c) (Zmax c) (CalendarType c) (need_calib c) (sfertstress c)
    (MaturityCD c) (planting_date c) (harvest_date c) v (Ksexpf_es c)
    (fcdecline_es c) (Kswp_es c) (Ksccx_es c) (relbio_es c) (Ksccx c)
    (Ksexpf c) (Kswp c) (fcdecline c) .

Definition set_Ksexpf_es (v : list Q) (c : Crop) : Crop :=
  mkCrop (Name c) (Zmax c) (CalendarType c) (need_calib c) (sfertstress c)
    (MaturityCD c) (planting_date c) (harvest_date c) (sf_es c) v
    (fcdecline_es c) (Kswp_es c) (Ksccx_es c) (relbio_es c) (Ksccx c)
    (Ksexpf c) (Kswp c) (fcdecline c) .

Definition set_fcdecline_es (v : list Q) (c : Crop) : Crop :=
  mkCrop (Name c) (Zmax c) (CalendarType c) (need_calib c) (sfertstress c)
    (MaturityCD c) (planting_date c) (harvest_date c) (sf_es c)
    (Ksexpf_es c) v (Kswp_es c) (Ksccx_es c) (relbio_es c) (Ksccx c)
    (Ksexpf c) (Kswp c) (fcdecline c) .

Definition set_Kswp_es (v : list Q) (c : Crop) : Crop :=
  mkCrop (Name c) (Zmax c) (CalendarType c) (need_calib c) (sfertstress c)
    (MaturityCD c) (planting_date c) (harvest_date c) (sf_es c)
    (Ksexpf_es c) (fcdecline_es c) v (Ksccx_es c) (relbio_es c) (Ksccx c)
    (Ksexpf c) (Kswp c) (fcdecline c) .

Definition set_Ksccx_es (v : list Q) (c : Crop) : Crop :=
  mkCrop (Name c) (Zmax c) (CalendarType c) (need_calib c) (sfertstress c)
    (MaturityCD c) (planting_date c) (harvest_date c) (sf_es c)
    (Ksexpf_es c) (fcdecline_es c) (Kswp_es c) v (relbio_es c) (Ksccx c)
    (Ksexpf c) (Kswp c) (fcdecline c) .

Definition set_relbio_es (v : list Q) (c : Crop) : Crop :=
  mkCrop (Name c) (Zmax c) (CalendarType c) (need_calib c) (sfertstress c)
    (MaturityCD c) (planting_date c) (harvest_date c) (sf_es c)
    (Ksexpf_es c) (fcdecline_es c) (Kswp_es c) (Ksccx_es c) v (Ksccx c)
    (Ksexpf c) (Kswp c) (fcdecline c) .

Definition set_harvest_date (v : MonthDay) (c : Crop) : Crop :=
  mkCrop (Name c) (Zmax c) (CalendarType c) (need_calib c) (sfertstress c)
    (MaturityCD c) (planting_date c) v (sf_es c) (Ksexpf_es c)
    (fcdecline_es c) (Kswp_es c) (Ksccx_es c) (relbio_es c) (Ksccx c)
    (Ksexpf c) (Kswp c) (fcdecline c) .

(** What [compute_crop_calendar] hands back: the caller unpacks five values
    (crop, three series, parameter object) where calibration is requested
    and takes a crop where it is not. *)
Inductive calendar_value : Type :=
| CropOnly
| CropAndSeries (gdd_cum Ksc_total Ks_tr : list Q).

(** The collaborators of [read_model_parameters] that live in other modules
    of the package.  Both calendar helpers receive the crop and parameter
    objects and return a crop that the caller binds to [crop] again: they
    are computations on the state, updating the objects they are handed. *)
Class Collaborators : Type := {
  Weather : Type;
  compute_crop_calendar :
    list Date -> Date -> list Date -> Weather -> St State calendar_value;
  calibrate_soil_fert_stress :
    list Q -> list Q -> list Q -> St State unit;
  co2_interp : Z -> Q
}.

(** *** Soil-depth growth *)

Local Open Scope Q_scope.

(** [x < y] on floats. *)
Definition Qltb (x y : Q) : bool := negb (Qle_bool y x).

Fixpoint cumsum (acc : Q) (l : list Q) : list Q :=
  match l with
  | [] => []
  | x :: r => (acc + x) :: cumsum (acc + x) r
  end.

Definition total (l : list Q) : Q := fold_right Qplus 0 l.

(** Modelled from the spec: [Soil.fill_nan], whose code is with the soil
    class; after a change of depth increments it recomputes the cumulative
    depths and the total column depth. *)
Definition fill_nan (s : Soil) : Soil :=
  mkSoil (dz s) (cumsum 0 (dz s)) (total (dz s)).

(** [soil.profile.loc[i, "dz"] += 0.1] *)
Definition add_dz (i : nat) (s : Soil) : Soil :=
  mkSoil (list_set i (nth i (dz s) 0 + 0.1) (dz s)) (dzsum s) (zSoil s).

(** The [for] loop over the given compartment indices: the first one
    thinner than 0.25 is thickened, and the scan stops there. *)
Fixpoint thicken_first (idx : list nat) (s : Soil) : Soil :=
  match idx with
  | [] => s
  | i :: rest =>
      if Qltb (nth i (dz s) 0) 0.25
      then fill_nan (add_dz i s)
      else thicken_first rest s
  end.

(** [soil.profile.index[::-1]] *)
Definition reversed_index (s : Soil) : list nat :=
  rev (seq 0 (List.length (dz s))).

(** The [while] loop; [None] when the fuel runs out before the loop
    condition fails. *)
Fixpoint soil_depth_loop (fuel : nat) (zmax : Q) (s : Soil) : option Soil :=
  if Qltb (zSoil s) (zmax + 0.1)
  then match fuel with
       | O => None
       | S f => soil_depth_loop f zmax (thicken_first (reversed_index s) s)
       end
  else Some s.

(** *** Soil-fertility-stress calibration *)

Fixpoint argmin_from (l : list Q) (i best : nat) (least : Q) : nat :=
  match l with
  | [] => best
  | x :: r =>
      if Qltb x least
      then argmin_from r (S i) i x
      else argmin_from r (S i) best least
  end.

(** [np.argmin]: the first position of the least element. *)
Definition np_argmin (l : list Q) : result nat :=
  match l with
  | [] => Raise (ValueError "attempt to get argmin of an empty sequence"%string)
  | x :: r => Ok (argmin_from r 1 0 x)
  end.

Definition index {A : Type} (l : list A) (i : nat) : result A :=
  match nth_error l i with
  | Some v => Ok v
  | None => Raise IndexError
  end.

Definition no_stress_value : string :=
  "No user-specified soil fertility stress value, no default available."%string.

Definition calendar_days_mode : string :=
  "You cannot currently run the soil fertility stress module in calendar days mode, please use GDD mode to continue using soil fertility stress."%string.

(** The stress parameters, from the response curve the helpers left on the
    crop. *)
Definition soil_fert_stress_parameters : St State unit :=
  sf_es_ <- gets (fun s => sf_es (crop s)) ;;
  Ksexpf_es_ <- gets (fun s => Ksexpf_es (crop s)) ;;
  fcdecline_es_ <- gets (fun s => fcdecline_es (crop s)) ;;
  Kswp_es_ <- gets (fun s => Kswp_es (crop s)) ;;
  Ksccx_es_ <- gets (fun s => Ksccx_es (crop s)) ;;
  relbio_es_ <- gets (fun s => relbio_es (crop s)) ;;
  target <- gets (fun s => sfertstress (crop s)) ;;
  (if Qeq_bool target 0 then raise (ValueError no_stress_value) else ret tt) ;;;
  stress <- gets (fun s => sfertstress (crop s)) ;;
  loc_ <- lift (np_argmin (map (fun x => Qabs (x - stress)) (firstn 100 sf_es_))) ;;
  Ksccx_ <- lift (index Ksccx_es_ loc_) ;;
  Ksexpf_ <- lift (index Ksexpf_es_ loc_) ;;
  Kswp_ <- lift (index Kswp_es_ loc_) ;;
  fcdecline_ <- lift (index fcdecline_es_ loc_) ;;
  modify (with_crop (set_Ksccx Ksccx_)) ;;;
  modify (with_crop (set_Ksexpf Ksexpf_)) ;;;
  modify (with_crop (set_Kswp Kswp_)) ;;;
  modify (with_crop (set_fcdecline fcdecline_)) ;;;
  modify (with_crop (set_sf_es sf_es_)) ;;;
  modify (with_crop (set_Ksexpf_es Ksexpf_es_)) ;;;
  modify (with_crop (set_fcdecline_es fcdecline_es_)) ;;;
  modify (with_crop (set_Kswp_es Kswp_es_)) ;;;
  modify (with_crop (set_Ksccx_es Ksccx_es_)) ;;;
  modify (with_crop (set_relbio_es relbio_es_)).

Section WithCollaborators.

Context {collaborators : Collaborators}.

Definition call_compute_crop_calendar (weather_df : Weather)
  : St State calendar_value :=
  pd <- gets (fun s => planting_dates (clock_struct s)) ;;
  start <- gets (fun s => simulation_start_date (clock_struct s)) ;;
  span <- gets (fun s => time_span (clock_struct s)) ;;
  compute_crop_calendar pd start span weather_df.

(** The crop calendar: helpers and calibration in growing-degree-day mode,
    refusal in calendar-day mode. *)
Definition crop_calendar (weather_df : Weather) : St State unit :=
  Mode <- gets (fun s => CalendarType (crop s)) ;;
  if (Mode =? 2)%Z then
    nc <- gets (fun s => need_calib (crop s)) ;;
    (if (nc =? 1)%Z then
       v <- call_compute_crop_calendar weather_df ;;
       match v with
       | CropOnly => raise TypeError
       | CropAndSeries gdd_cum Ksc_total Ks_tr =>
           calibrate_soil_fert_stress gdd_cum Ksc_total Ks_tr ;;;
           soil_fert_stress_parameters
       end
     else
       v <- call_compute_crop_calendar weather_df ;;
       match v with
       | CropOnly => ret tt
       | CropAndSeries _ _ _ => raise AttributeError
       end) ;;;
    MaturityCD_ <- gets (fun s => MaturityCD (crop s)) ;;
    let mature := (MaturityCD_ + 30)%Z in
    pdate <- gets (fun s => planting_date (crop s)) ;;
    plant <- lift (to_datetime 1990 pdate) ;;
    let harv := add_days plant mature in
    let new_harvest_date := mkMonthDay (month harv) (day harv) in
    modify (with_crop (set_harvest_date new_harvest_date))
  else if (Mode =? 1)%Z then
    raise (ValueError calendar_days_mode)
  else ret tt.

End WithCollaborators.

(** *** Season scheduling *)

(** Planting and harvest years, from the simulation window and the crop's
    planting and harvest day/month. *)
Definition season_years : St State (list Z * list Z) :=
  sim_start_date <- gets (fun s => simulation_start_date (clock_struct s)) ;;
  sim_end_date <- gets (fun s => simulation_end_date (clock_struct s)) ;;
  let start_year := year sim_start_date in
  let end_year := year sim_end_date in
  pdate <- gets (fun s => planting_date (crop s)) ;;
  hdate <- gets (fun s => harvest_date (crop s)) ;;
  p90 <- lift (to_datetime 1990 pdate) ;;
  h90 <- lift (to_datetime 1990 hdate) ;;
  let single_year := date_ltb p90 h90 in
  if single_year then
    mock_simulation_end_date <-
      lift (to_datetime 1990
              (mkMonthDay (month sim_end_date) (day sim_end_date))) ;;
    mock_simulation_start_date <- lift (to_datetime 1990 pdate) ;;
    let last_simulation_year_does_not_start :=
      date_leb mock_simulation_end_date mock_simulation_start_date in
    let end_year :=
      if last_simulation_year_does_not_start then (end_year - 1)%Z
      else end_year in
    let plant_years := range start_year (end_year + 1) in
    let harvest_years := plant_years in
    ret (plant_years, harvest_years)
  else
    h2 <- lift (to_datetime (end_year + 2) hdate) ;;
    if date_ltb h2 sim_end_date
    then ret (range start_year (end_year + 1),
              range (start_year + 1) (end_year + 2))
    else ret (range start_year end_year,
              range (start_year + 1) (end_year + 1)).

(** Correction for a partial first growing season. *)
Definition first_season_correction (years : list Z * list Z)
  : St State (list Z * list Z) :=
  let plant_years := fst years in
  let harvest_years := snd years in
  y0 <- lift (index plant_years 0) ;;
  pdate <- gets (fun s => planting_date (crop s)) ;;
  first <- lift (to_datetime y0 pdate) ;;
  start <- gets (fun s => simulation_start_date (clock_struct s)) ;;
  if date_ltb first start
  then ret (tl plant_years, tl harvest_years)
  else ret (plant_years, harvest_years).

Fixpoint mapM {S A B : Type} (f : A -> St S B) (l : list A) : St S (list B) :=
  match l with
  | [] => ret []
  | x :: r => y <- f x ;; ys <- mapM f r ;; ret (y :: ys)
  end.

Definition set_planting_dates (v : list Date) (c : ClockStruct) : ClockStruct :=
  mkClock (simulation_start_date c) (simulation_end_date c) (step_start_time c)
    (time_span c) v (harvest_dates c) (n_seasons c) (season_counter c).

Definition set_harvest_dates (v : list Date) (c : ClockStruct) : ClockStruct :=
  mkClock (simulation_start_date c) (simulation_end_date c) (step_start_time c)
    (time_span c) (planting_dates c) v (n_seasons c) (season_counter c).

Definition set_n_seasons (v : Z) (c : ClockStruct) : ClockStruct :=
  mkClock (simulation_start_date c) (simulation_end_date c) (step_start_time c)
    (time_span c) (planting_dates c) (harvest_dates c) v (season_counter c).

Definition set_season_counter (v : Z) (c : ClockStruct) : ClockStruct :=
  mkClock (simulation_start_date c) (simulation_end_date c) (step_start_time c)
    (time_span c) (planting_dates c) (harvest_dates c) (n_seasons c) v.

Definition set_NCrops (v : Z) (ps : ParamStruct) : ParamStruct :=
  mkParam v (co2_data_processed ps) (CropChoices ps).

Definition set_co2_data_processed (v : list (Z * Q)) (ps : ParamStruct)
  : ParamStruct :=
  mkParam (NCrops ps) v (CropChoices ps).

Definition set_CropChoices (v : list string) (ps : ParamStruct) : ParamStruct :=
  mkParam (NCrops ps) (co2_data_processed ps) v.

(** The seasons: dates of planting and harvest, crop choices, counter.
    [param_struct.CropList[0]] is the crop object itself. *)
Definition seasons (years : list Z * list Z) : St State unit :=
  let plant_years := fst years in
  let harvest_years := snd years in
  (if Nat.eqb (List.length plant_years) (List.length harvest_years)
   then ret tt else raise AssertionError) ;;;
  rows <- mapM (fun i =>
            p <- lift (index plant_years i) ;;
            pdate <- gets (fun s => planting_date (crop s)) ;;
            h <- lift (index harvest_years i) ;;
            hdate <- gets (fun s => harvest_date (crop s)) ;;
            name <- gets (fun s => Name (crop s)) ;;
            ret ((p, pdate), (h, hdate), name))
          (seq 0 (List.length plant_years)) ;;
  let planting_dates := map (fun r => fst (fst r)) rows in
  let harvest_dates := map (fun r => snd (fst r)) rows in
  let crop_choices := map snd rows in
  modify (with_param (set_CropChoices crop_choices)) ;;;
  pds <- mapM (fun ym => lift (to_datetime (fst ym) (snd ym))) planting_dates ;;
  modify (with_clock (set_planting_dates pds)) ;;;
  hds <- mapM (fun ym => lift (to_datetime (fst ym) (snd ym))) harvest_dates ;;
  modify (with_clock (set_harvest_dates hds)) ;;;
  modify (with_clock (set_n_seasons (Z.of_nat (List.length planting_dates)))) ;;;
  step <- gets (fun s => step_start_time (clock_struct s)) ;;
  pds' <- gets (fun s => ReadModelParameters.planting_dates (clock_struct s)) ;;
  first <- lift (index pds' 0) ;;
  if date_eqb step first
  then modify (with_clock (set_season_counter 0))
  else modify (with_clock (set_season_counter (-1))).

Section WithCollaborators.

Context {collaborators : Collaborators}.

(** Everything after the soil-depth loop. *)
Definition finalise (weather_df : Weather)
  : St State (ClockStruct * ParamStruct) :=
  modify (with_param (set_NCrops 1)) ;;;
  start_year <- gets (fun s => year (simulation_start_date (clock_struct s))) ;;
  end_year <- gets (fun s => year (simulation_end_date (clock_struct s))) ;;
  let sim_years := range start_year (end_year + 1) in
  modify (with_param
            (set_co2_data_processed
               (map (fun y => (y, co2_interp y)) sim_years))) ;;;
  crop_calendar weather_df ;;;
  years <- season_years ;;
  years <- first_season_correction years ;;
  seasons years ;;;
  gets (fun s => (clock_struct s, param_struct s)).

(** A freshly made [ParamStruct()]. *)
Definition new_ParamStruct : ParamStruct := mkParam 0 [] [].

(** [None]: the soil-depth loop is still running when the fuel is spent. *)
Definition read_model_parameters (fuel : nat)
  (clock_struct : ClockStruct) (soil : Soil) (crop : Crop)
  (weather_df : Weather)
  : option (result (ClockStruct * ParamStruct) * State) :=
  let soil := fill_nan soil in
  match soil_depth_loop fuel (Zmax crop) soil with
  | None => None
  | Some soil =>
      Some (finalise weather_df (mkState clock_struct soil crop new_ParamStruct))
  end.

End WithCollaborators.

(** *** Vocabulary and example inputs of the properties *)

(** How many more times a compartment of depth [d] can be thickened. *)
Definition deficit (d : Q) : nat :=
  if Qltb d 0.25 then Z.to_nat (Qceiling ((0.25 - d) * 10)) else 0.

(** The thickenings left in a whole column: the measure that every
    effective pass of the loop decreases. *)
Definition slack (l : list Q) : nat := list_sum (map deficit l).

(** One pass of the [for] loop. *)
Definition pass (s : Soil) : Soil := thicken_first (reversed_index s) s.

(** No compartment is thinner than 0.25. *)
Definition none_eligible (s : Soil) : Prop :=
  forall i, (i < List.length (dz s))%nat -> Qltb (nth i (dz s) 0) 0.25 = false.

(** Helpers that leave every object alone: the calendar helper hands back
    the crop, the calibration helper returns at once. *)
Definition crop_only_helpers : Collaborators :=
  {| Weather := unit;
     compute_crop_calendar := fun _ _ _ _ => ret CropOnly;
     calibrate_soil_fert_stress := fun _ _ _ => ret tt;
     co2_interp := fun _ => 0 |}.

(** The same, with the calendar helper handing back five values. *)
Definition series_helpers : Collaborators :=
  {| Weather := unit;
     compute_crop_calendar := fun _ _ _ _ => ret (CropAndSeries [] [] []);
     calibrate_soil_fert_stress := fun _ _ _ => ret tt;
     co2_interp := fun _ => 0 |}.

(** A simulation over the years 2000 to 2002. *)
Definition example_clock : ClockStruct :=
  mkClock (mkDate 2000 1 1) (mkDate 2002 12 31) (mkDate 2000 1 1) [] [] [] 0 0.

(** Four compartments, 0.7 deep in total. *)
Definition example_soil : Soil := mkSoil [0.1; 0.1; 0.2; 0.3] [] 0.

(** [example_soil] once the loop has thickened it for a root depth of 1. *)
Definition example_grown_soil : Soil :=
  fill_nan (mkSoil [0.1 + 0.1; 0.1 + 0.1 + 0.1; 0.2 + 0.1; 0.3] [] 0).

(** A crop in growing-degree-day mode; [calib] and [stress] are the
    calibration request and the target stress. *)
Definition example_crop (mode calib : Z) (stress : Q) (relbio : list Q) : Crop :=
  mkCrop "Maize" 1 mode calib stress 100 (mkMonthDay 5 1) (mkMonthDay 9 1)
    [0; 0.1; 0.2; 0.3] [1; 0.9; 0.8; 0.7] [0; 0.01; 0.02; 0.03]
    [1; 0.95; 0.9; 0.85] [1; 0.8; 0.6; 0.4] relbio 0 0 0 0.

(** A column of one compartment, 0.3 thick, under a crop rooting to 1. *)
Definition shallow_column : Soil := mkSoil [0.3] [] 0.

(** The state on which the calendar is built: after the soil-depth loop,
    with the crop count and CO2 series stored. *)
Definition calendar_entry {collaborators : Collaborators}
  (clk : ClockStruct) (soil' : Soil) (c : Crop) : State :=
  mkState clk soil' c
    (mkParam 1
       (map (fun y => (y, co2_interp y))
          (range (year (simulation_start_date clk))
             (year (simulation_end_date clk) + 1)))
       []).

(** The absolute differences searched by the calibrator. *)
Definition distances (stress : Q) (curve : list Q) : list Q :=
  map (fun x => Qabs (x - stress)) curve.

(** The crop after calibration: four coefficients are replaced. *)
Definition calibrated (a b c d : Q) (cr : Crop) : Crop :=
  mkCrop (Name cr) (Zmax cr) (CalendarType cr) (need_calib cr)
    (sfertstress cr) (MaturityCD cr) (planting_date cr) (harvest_date cr)
    (sf_es cr) (Ksexpf_es cr) (fcdecline_es cr) (Kswp_es cr) (Ksccx_es cr)
    (relbio_es cr) a b c d.

(** Strictly increasing stress fractions. *)
Definition increasing (curve : list Q) : Prop :=
  forall i j, (i < j < List.length curve)%nat -> nth i curve 0 < nth j curve 0.

(** A state whose crop asks for a target stress of 0.2, the third row of
    its response curve; [relbio] is its relative-biomass column. *)
Definition example_state (relbio : list Q) : State :=
  mkState example_clock example_grown_soil (example_crop 2 1 0.2 relbio)
    new_ParamStruct.

(** A simulation from 1 January 2000 to the day [e]. *)
Definition state_ending (e : Date) : State :=
  mkState (mkClock (mkDate 2000 1 1) e (mkDate 2000 1 1) [] [] [] 0 0)
    example_grown_soil (example_crop 2 0 0 []) new_ParamStruct.




(** The clock after the seasons are stored. *)
Definition scheduled (pds hds : list Date) (c : ClockStruct) : ClockStruct :=
  mkClock (simulation_start_date c) (simulation_end_date c)
    (step_start_time c) (time_span c) pds hds (Z.of_nat (List.length pds))
    (if date_eqb (step_start_time c) (hd (step_start_time c) pds)
     then 0%Z else (-1)%Z).

(** The day and month [md] in the year [y]. *)
Definition date_of (md : MonthDay) (y : Z) : Date :=
  mkDate y (md_month md) (md_day md).

(** A simulation from 1 June 2000 to the end of 2002: the planting day of
    2000, 1 May, is already past. *)
Definition late_start_state : State :=
  mkState (mkClock (mkDate 2000 6 1) (mkDate 2002 12 31) (mkDate 2000 6 1)
             [] [] [] 0 0)
    example_grown_soil (example_crop 2 0 0 []) new_ParamStruct.

(** *** Further vocabulary *)

(** What the soil-depth loop may do to a depth increment: a compartment of
    0.25 or more is kept; a thinner one is kept or thickened, and stays
    below 0.35. *)
Definition thickened (d d' : Q) : Prop :=
  (0.25 <= d /\ d' = d) \/ (d < 0.25 /\ d <= d' /\ d' < 0.35).

(** One pass: nothing, or 0.1 more on a compartment thinner than 0.25. *)
Definition thickened_once (d d' : Q) : Prop :=
  d' = d \/ (d < 0.25 /\ d' = d + 0.1).

(** A season of the clock [c] planted on [p] and harvested on [h]: planted
    inside the simulated period, and harvested after it is planted. *)
Definition season_in_window (c : ClockStruct) (p h : Date) : Prop :=
  date_ltb p (simulation_start_date c) = false /\
  date_ltb p (simulation_end_date c) = true /\
  date_ltb p h = true.

(** The state left behind when no season remains: empty lists of dates and
    of crop choices, a season count of zero, the season counter untouched. *)
Definition without_seasons (s : State) : State :=
  let c := clock_struct s in
  mkState
    (mkClock (simulation_start_date c) (simulation_end_date c)
       (step_start_time c) (time_span c) [] [] 0 (season_counter c))
    (soil s) (crop s) (set_CropChoices [] (param_struct s)).

(** The errors the scheduling of seasons can end in: a date that does not
    exist, or a season that is not there. *)
Definition date_or_index_error (e : exn) : Prop :=
  e = IndexError \/ exists msg, e = ValueError msg.

End ReadModelParameters.

(** * Properties of the partition in binary64 *)

Module RainfallPartition64Proofs.

Import PrimFloat SpecFloat FloatOps FloatAxioms RainfallPartition64.

Local Open Scope float_scope.

(** Decimal literals stand for the nearest binary64 value, as in Python. *)
Local Set Warnings "-inexact-float".







End RainfallPartition64Proofs.

(** * Properties of [rainfall_partition] *)

Module RainfallPartitionProofs.

Import RainfallPartition.

Local Open Scope R_scope.

Lemma retention_value (CN : R) (p : SoilProfile) :
  CN <> 0 -> retention CN p = (Ok (25400 / CN - 254), p).
Proof.
  intros H. unfold retention, bind, div.
  destruct (Req_dec_T CN 0) as [E | _]; [contradiction | reflexivity].
Qed.

Lemma retention_zero (p : SoilProfile) :
  retention 0 p = (Raise ZeroDivisionError, p).
Proof.
  unfold retention, bind, div.
  destruct (Req_dec_T 0 0) as [_ | N]; [reflexivity | contradiction N; reflexivity].
Qed.

Lemma retention_nonneg (CN : R) : 0 < CN <= 100 -> 0 <= 25400 / CN - 254.
Proof.
  intros [H0 H1].
  assert (254 <= 25400 / CN); [| lra].
  apply Rmult_le_reg_r with CN; [assumption |].
  unfold Rdiv. rewrite Rmult_assoc, Rinv_l by lra. lra.
Qed.

Lemma retention_neg (CN : R) : CN < 0 -> 25400 / CN - 254 < -254.
Proof.
  intros H.
  assert (25400 / CN < 0); [| lra].
  unfold Rdiv. apply Rmult_pos_neg; [lra |]. now apply Rinv_neg.
Qed.

(** The partition for a retention [S >= 0]. *)
Lemma partition_spec (P CN : R) (p : SoilProfile) :
  0 <= P -> 0 < CN <= 100 ->
  exists Runoff Infl,
    partition P CN p = (Ok (Runoff, Infl), p) /\
    0 <= Runoff <= P /\ Runoff + Infl = P /\
    let S := 25400 / CN - 254 in
    let term := P - 5 / 100 * S in
    (term <= 0 -> Runoff = 0 /\ Infl = P) /\
    (0 < term ->
       Runoff = term ^ 2 / (P + (1 - 5 / 100) * S) /\ Infl = P - Runoff).
Proof.
  intros HP HCN.
  pose proof (retention_nonneg CN HCN) as HS.
  unfold partition, bind. rewrite retention_value by lra.
  set (S := 25400 / CN - 254) in *.
  destruct (Rle_dec (P - 5 / 100 * S) 0) as [Ht | Ht].
  - exists 0, P. repeat split; try lra.
  - assert (HD : 0 < P + (1 - 5 / 100) * S) by lra.
    unfold div. destruct (Req_dec_T (P + (1 - 5 / 100) * S) 0) as [E | _]; [lra |].
    eexists _, _. split; [reflexivity |].
    assert (Hr : (P - 5 / 100 * S) ^ 2 / (P + (1 - 5 / 100) * S) <= P).
    { apply Rmult_le_reg_r with (P + (1 - 5 / 100) * S); [assumption |].
      unfold Rdiv. rewrite Rmult_assoc, Rinv_l by lra. nra. }
    assert (Hr0 : 0 <= (P - 5 / 100 * S) ^ 2 / (P + (1 - 5 / 100) * S)).
    { apply Rmult_le_reg_r with (P + (1 - 5 / 100) * S); [assumption |].
      unfold Rdiv. rewrite Rmult_assoc, Rinv_l by lra. nra. }
    repeat split; try lra.
Qed.

Lemma runoff_allowed_true (SRinhb Bunds zBund : R) :
  runoff_allowed SRinhb Bunds zBund = true <->
  SRinhb = 0 /\ (Bunds = 0 \/ zBund < 0.001).
Proof.
  unfold runoff_allowed.
  destruct (Req_dec_T SRinhb 0), (Req_dec_T Bunds 0), (Rlt_dec zBund 0.001);
    simpl; split; intros H; try discriminate; try tauto;
    repeat split; auto; tauto.
Qed.

Lemma runoff_allowed_false (SRinhb Bunds zBund : R) :
  runoff_allowed SRinhb Bunds zBund = false <->
  SRinhb <> 0 \/ (Bunds <> 0 /\ 0.001 <= zBund).
Proof.
  unfold runoff_allowed.
  destruct (Req_dec_T SRinhb 0), (Req_dec_T Bunds 0), (Rlt_dec zBund 0.001);
    simpl; split; intros H; try discriminate; try tauto; try lra.
Qed.

Lemma rainfall_partition_allowed
  (P : R) (th : list R) (days : Z)
  (SRinhb Bunds zBund pct Soil_CN AdjCN zCN nComp : R) (p : SoilProfile) :
  runoff_allowed SRinhb Bunds zBund = true ->
  rainfall_partition P th days SRinhb Bunds zBund pct Soil_CN AdjCN zCN nComp p
  = (CN <- adjusted_CN th pct Soil_CN AdjCN zCN nComp ;;
     ri <- partition P CN ;;
     ret (fst ri, snd ri, 0%Z)) p.
Proof. intros H. unfold rainfall_partition. rewrite H. reflexivity. Qed.

(** *** Frame lemmas: which computations leave the profile alone *)

Lemma unchanged_ret {A : Type} (a : A) : unchanged (ret a).
Proof. intros p. reflexivity. Qed.

Lemma unchanged_raise {A : Type} (e : exn) : unchanged (@raise SoilProfile A e).
Proof. intros p. reflexivity. Qed.

Lemma unchanged_bind {A B : Type} (m : M A) (k : A -> M B) :
  unchanged m -> (forall a, unchanged (k a)) -> unchanged (bind m k).
Proof.
  intros Hm Hk p. unfold bind. specialize (Hm p).
  destruct (m p) as [[a | e] p']; simpl in Hm; subst p'.
  - apply Hk.
  - reflexivity.
Qed.

Lemma unchanged_index (l : list R) (ii : nat) : unchanged (index l ii).
Proof.
  unfold index. destruct (nth_error l ii);
    [apply unchanged_ret | apply unchanged_raise].
Qed.

Lemma unchanged_get_th_wp (ii : nat) : unchanged (get_th_wp ii).
Proof. intros p. unfold get_th_wp. apply unchanged_index. Qed.

Lemma unchanged_get_th_fc (ii : nat) : unchanged (get_th_fc ii).
Proof. intros p. unfold get_th_fc. apply unchanged_index. Qed.

Lemma unchanged_get_dzsum (ii : nat) : unchanged (get_dzsum ii).
Proof. intros p. unfold get_dzsum. apply unchanged_index. Qed.

Lemma unchanged_div (a b : R) : unchanged (div a b).
Proof.
  unfold div. destruct (Req_dec_T b 0);
    [apply unchanged_raise | apply unchanged_ret].
Qed.

Lemma unchanged_np_zeros (n : Z) : unchanged (np_zeros n).
Proof.
  unfold np_zeros. destruct (n <? 0)%Z;
    [apply unchanged_raise | apply unchanged_ret].
Qed.

Lemma unchanged_retention (CN : R) : unchanged (retention CN).
Proof.
  unfold retention. apply unchanged_bind; [apply unchanged_div |].
  intros q. apply unchanged_ret.
Qed.

Lemma unchanged_partition (P CN : R) : unchanged (partition P CN).
Proof.
  unfold partition. apply unchanged_bind; [apply unchanged_retention |].
  intros S. destruct (Rle_dec _ _); [apply unchanged_ret |].
  apply unchanged_bind; [apply unchanged_div |].
  intros q. apply unchanged_ret.
Qed.

Lemma unchanged_wetness_loop (th wrel : list R) (idx : list nat) :
  forall wet, unchanged (wetness_loop th wrel idx wet).
Proof.
  induction idx as [| ii rest IH]; intros wet; simpl.
  - apply unchanged_ret.
  - repeat (apply unchanged_bind;
            [first [apply unchanged_get_th_wp | apply unchanged_get_th_fc
                   | apply unchanged_index | apply unchanged_div] | intros ?]).
    apply IH.
Qed.

Lemma weighting_loop_unchanged (zCN : R) (idx : list nat) (p : SoilProfile) :
  no_clamp zCN idx p ->
  forall xx wrel, snd (weighting_loop zCN idx xx wrel p) = p.
Proof.
  induction idx as [| ii rest IH]; intros Hno xx wrel; simpl.
  - reflexivity.
  - unfold bind at 1. unfold get_dzsum at 1, index.
    destruct (nth_error (dzsum p) ii) as [d |] eqn:Hd; [| reflexivity].
    unfold ret at 1.
    destruct (Rgt_dec d zCN) as [Hgt | _].
    { exfalso. apply (Hno ii d); [left; reflexivity | assumption | assumption]. }
    unfold bind at 1. unfold ret at 1.
    unfold bind at 1. unfold get_dzsum at 1, index. rewrite Hd. unfold ret at 1.
    unfold bind at 1. unfold div.
    destruct (Req_dec_T zCN 0); [reflexivity |].
    unfold ret at 1. apply IH.
    intros jj e Hin. apply Hno. right; assumption.
Qed.

(** *** Sorted cumulative depths *)

Lemma count_ge_le_length (z : R) (l : list R) :
  (count_ge z l <= List.length l)%nat.
Proof. unfold count_ge. apply filter_length_le. Qed.

Lemma count_ge_all (z : R) (l : list R) :
  Forall (fun d => d >= z) l -> count_ge z l = List.length l.
Proof.
  unfold count_ge. induction 1 as [| x r Hx _ IH]; simpl; [reflexivity |].
  destruct (Rge_dec x z); [simpl; now rewrite IH | contradiction].
Qed.

Lemma sorted_prefix_below (z : R) (l : list R) :
  StronglySorted Rle l ->
  forall i d, (i < List.length l - count_ge z l)%nat ->
              nth_error l i = Some d -> d < z.
Proof.
  induction 1 as [| x r Hr IH Hx]; intros i d Hi Hd.
  - destruct i; discriminate.
  - destruct (Rge_dec x z) as [Hge | Hlt].
    + exfalso.
      assert (Hall : Forall (fun d => d >= z) (x :: r)).
      { constructor; [assumption |].
        eapply Forall_impl; [| exact Hx]. intros a Ha.
        apply Rle_ge. apply Rle_trans with x; [apply Rge_le |]; assumption. }
      rewrite (count_ge_all z _ Hall) in Hi. lia.
    + assert (Hc : count_ge z (x :: r) = count_ge z r).
      { unfold count_ge. simpl.
        destruct (Rge_dec x z); [contradiction | reflexivity]. }
      rewrite Hc in Hi. destruct i as [| j]; simpl in Hd.
      * injection Hd as <-. lra.
      * apply (IH j); [| assumption].
        pose proof (count_ge_le_length z r).
        change (List.length (x :: r)) with (S (List.length r)) in Hi. lia.
Qed.

Lemma int_le_nat (x : R) (n : nat) : x <= INR n -> (Z.to_nat (int x) <= n)%nat.
Proof.
  intros Hx. unfold int. destruct (Rle_dec 0 x) as [H0 | H0].
  - destruct (base_Int_part x) as [Hle _].
    assert (Int_part x <= Z.of_nat n)%Z; [| lia].
    apply le_IZR. rewrite <- INR_IZR_INZ. lra.
  - destruct (base_Int_part (- x)) as [_ Hgt].
    assert (-1 < Int_part (- x))%Z; [| lia].
    apply lt_IZR. lra.
Qed.

Lemma comp_sto_le (nComp zCN : R) (l : list R) :
  nComp <= INR (List.length l) ->
  (Z.to_nat (comp_sto_of nComp zCN l) <= List.length l - count_ge zCN l)%nat.
Proof.
  intros H. pose proof (count_ge_le_length zCN l) as Hc.
  assert (Hn : nComp - INR (count_ge zCN l)
               <= INR (List.length l - count_ge zCN l)).
  { rewrite minus_INR by assumption. lra. }
  unfold comp_sto_of. destruct (count_ge zCN l) as [| c] eqn:E.
  - apply int_le_nat. simpl in Hn. lra.
  - apply int_le_nat. exact Hn.
Qed.

Lemma sorted_no_clamp (nComp zCN : R) (p : SoilProfile) :
  Sorted Rle (dzsum p) ->
  nComp <= INR (List.length (dzsum p)) ->
  forall ii d,
    In ii (range (comp_sto_of nComp zCN (dzsum p))) ->
    nth_error (dzsum p) ii = Some d -> d < zCN.
Proof.
  intros Hs Hn ii d Hin Hd.
  apply (sorted_prefix_below zCN (dzsum p)) with (i := ii); [| | assumption].
  - apply Sorted_StronglySorted; [| assumption].
    intros a b c Hab Hbc. lra.
  - unfold range in Hin. apply in_seq in Hin.
    pose proof (comp_sto_le nComp zCN (dzsum p) Hn). lia.
Qed.

Lemma moisture_adjusted_CN_unchanged (th : list R) (zCN nComp CN : R)
  (p : SoilProfile) :
  no_clamp zCN (range (comp_sto_of nComp zCN (dzsum p))) p ->
  snd (moisture_adjusted_CN th zCN nComp CN p) = p.
Proof.
  intros Hno. unfold moisture_adjusted_CN.
  unfold bind at 1.
  pose proof (unchanged_np_zeros (comp_sto_of nComp zCN (dzsum p)) p) as Hz.
  destruct (np_zeros _ p) as [[wrel0 | e] p0]; simpl in Hz; subst p0;
    [| reflexivity].
  unfold bind at 1.
  pose proof (weighting_loop_unchanged zCN _ p Hno 0 wrel0) as Hw.
  destruct (weighting_loop _ _ _ _ p) as [[xw | e] p1]; simpl in Hw; subst p1;
    [| reflexivity].
  apply (unchanged_bind (wetness_loop th (snd xw) _ 0)).
  - apply unchanged_wetness_loop.
  - intros wet. apply unchanged_ret.
Qed.

Lemma rainfall_partition_unchanged
  (P : R) (th : list R) (days : Z)
  (SRinhb Bunds zBund pct Soil_CN AdjCN zCN nComp : R) (p : SoilProfile) :
  no_clamp zCN (range (comp_sto_of nComp zCN (dzsum p))) p ->
  snd (rainfall_partition P th days SRinhb Bunds zBund pct Soil_CN AdjCN zCN
         nComp p) = p.
Proof.
  intros Hno. unfold rainfall_partition.
  destruct (runoff_allowed SRinhb Bunds zBund); [| reflexivity].
  unfold bind at 1.
  assert (Ha : snd (adjusted_CN th pct Soil_CN AdjCN zCN nComp p) = p).
  { unfold adjusted_CN. destruct (Req_dec_T AdjCN 1); [| reflexivity].
    apply moisture_adjusted_CN_unchanged. assumption. }
  destruct (adjusted_CN _ _ _ _ _ _ p) as [[CN | e] p1]; simpl in Ha; subst p1;
    [| reflexivity].
  apply (unchanged_bind (partition P CN)).
  - apply unchanged_partition.
  - intros ri. apply unchanged_ret.
Qed.

(** C10 (as amended): when [dzsum] is sorted non-decreasing and
    [Soil_nComp] does not exceed its length, every index below [comp_sto]
    holds a depth smaller than [Soil_zCN], the assignment to
    [prof.dzsum[ii]] is never reached, and the call leaves the profile as
    it found it. *)
Theorem sorted_profile_is_not_mutated
  (P : R) (th : list R) (days : Z)
  (SRinhb Bunds zBund pct Soil_CN AdjCN zCN nComp : R) (p : SoilProfile) :
  Sorted Rle (dzsum p) ->
  nComp <= INR (List.length (dzsum p)) ->
  (forall ii d,
     In ii (range (comp_sto_of nComp zCN (dzsum p))) ->
     nth_error (dzsum p) ii = Some d -> d < zCN) /\
  snd (rainfall_partition P th days SRinhb Bunds zBund pct Soil_CN AdjCN zCN
         nComp p) = p.
Proof.
  intros Hs Hn.
  pose proof (sorted_no_clamp nComp zCN p Hs Hn) as Hlt.
  split; [exact Hlt |].
  apply rainfall_partition_unchanged.
  intros ii d Hin Hd Hgt. specialize (Hlt ii d Hin Hd). lra.
Qed.

Lemma snd_bind {A B : Type} (m : M A) (k : A -> M B) (p : SoilProfile) :
  (forall a, unchanged (k a)) -> snd (bind m k p) = snd (m p).
Proof.
  intros Hk. unfold bind. destruct (m p) as [[a | e] p']; simpl;
    [apply Hk | reflexivity].
Qed.

Lemma np_zeros_nonneg (n : Z) :
  (0 <= n)%Z -> np_zeros n = ret (repeat 0 (Z.to_nat n)).
Proof.
  intros H. unfold np_zeros.
  destruct (Z.ltb_spec n 0); [lia | reflexivity].
Qed.

(** The only writes to the profile are those of the weighting loop. *)
Lemma rainfall_partition_profile
  (P : R) (th : list R) (days : Z)
  (SRinhb Bunds zBund pct Soil_CN AdjCN zCN nComp : R) (p : SoilProfile) :
  runoff_allowed SRinhb Bunds zBund = true ->
  AdjCN = 1 ->
  (0 <= comp_sto_of nComp zCN (dzsum p))%Z ->
  snd (rainfall_partition P th days SRinhb Bunds zBund pct Soil_CN AdjCN zCN
         nComp p)
  = snd (weighting_loop zCN (range (comp_sto_of nComp zCN (dzsum p))) 0
           (repeat 0 (Z.to_nat (comp_sto_of nComp zCN (dzsum p)))) p).
Proof.
  intros Hal Hadj Hc. rewrite rainfall_partition_allowed by assumption.
  rewrite snd_bind.
  2:{ intros CN. apply unchanged_bind; [apply unchanged_partition |].
      intros ri. apply unchanged_ret. }
  unfold adjusted_CN.
  destruct (Req_dec_T AdjCN 1) as [_ | N]; [| contradiction].
  unfold moisture_adjusted_CN. rewrite np_zeros_nonneg by assumption.
  change (bind (ret ?a) ?k p) with (k a p). cbv beta.
  apply snd_bind. intros xw.
  apply unchanged_bind; [apply unchanged_wetness_loop |].
  intros wet. apply unchanged_ret.
Qed.

Lemma int_IZR (z : Z) : int (IZR z) = z.
Proof.
  assert (H : forall k, Int_part (IZR k) = k).
  { intros k. symmetry. apply Int_part_spec. lra. }
  unfold int. destruct (Rle_dec 0 (IZR z)) as [_ | _].
  - apply H.
  - rewrite <- opp_IZR, H. lia.
Qed.

Lemma clamped_comp_sto : comp_sto_of 3 0.3 (dzsum clamped_profile) = 2%Z.
Proof.
  unfold comp_sto_of, count_ge, clamped_profile. simpl.
  destruct (Rge_dec 0.1 0.3) as [H | _]; [lra |].
  destruct (Rge_dec 0.5 0.3) as [_ | H]; [| lra].
  simpl. replace (3 - 1) with (IZR 2) by lra. apply int_IZR.
Qed.

(** C10, counterexample: with [dzsum = [0.1; 0.5]], [Soil_zCN = 0.3] and
    [Soil_nComp = 3] the array is sorted, yet the call overwrites its
    second entry with 0.3. *)
Lemma sorted_profile_mutated :
  Sorted Rle (dzsum clamped_profile) /\
  dzsum (snd (rainfall_partition 10 [0.2; 0.2] 0 0 0 0 0 75 1 0.3 3
                clamped_profile)) = [0.1; 0.3] /\
  [0.1; 0.3] <> dzsum clamped_profile.
Proof.
  split; [| split].
  - unfold clamped_profile. simpl.
    repeat constructor. lra.
  - rewrite rainfall_partition_profile;
      [| apply runoff_allowed_true; split; [reflexivity | left; reflexivity]
       | reflexivity
       | rewrite clamped_comp_sto; lia].
    rewrite clamped_comp_sto. unfold range, clamped_profile. simpl.
    unfold bind, get_dzsum, index, set_dzsum, div, ret. simpl.
    repeat (decide_R; simpl).
    reflexivity.
  - unfold clamped_profile. simpl. intros E.
    injection E as E. lra.
Qed.

Lemma sorted_profile_is_not_mutated_witness :
  (forall ii d,
     In ii (range (comp_sto_of 2 0.3 (dzsum clamped_profile))) ->
     nth_error (dzsum clamped_profile) ii = Some d -> d < 0.3) /\
  snd (rainfall_partition 10 [0.2; 0.2] 0 0 0 0 0 75 1 0.3 2 clamped_profile)
  = clamped_profile.
Proof.
  apply (sorted_profile_is_not_mutated 10 [0.2; 0.2] 0 0 0 0 0 75 1 0.3 2
           clamped_profile).
  - unfold clamped_profile. simpl. repeat constructor. lra.
  - unfold clamped_profile. simpl. lra.
Defined.

(** *** Curve numbers that are not positive *)

Lemma partition_zero_CN (P : R) (p : SoilProfile) :
  partition P 0 p = (Raise ZeroDivisionError, p).
Proof. unfold partition, bind. rewrite retention_zero. reflexivity. Qed.

Lemma partition_nonzero_CN (P CN : R) (p : SoilProfile) :
  CN <> 0 ->
  let S := 25400 / CN - 254 in
  let term := P - 5 / 100 * S in
  let D := P + (1 - 5 / 100) * S in
  (term <= 0 -> partition P CN p = (Ok (0, P), p)) /\
  (0 < term -> D <> 0 ->
     partition P CN p = (Ok (term ^ 2 / D, P - term ^ 2 / D), p)) /\
  (0 < term -> D = 0 -> partition P CN p = (Raise ZeroDivisionError, p)).
Proof.
  intros HCN S term D. unfold partition, bind.
  rewrite retention_value by assumption. fold S. fold term. fold D.
  repeat split; intros Ht; try intros HD;
    destruct (Rle_dec term 0) as [Hle | Hnle]; try lra; try reflexivity;
    unfold div; destruct (Req_dec_T D 0) as [E | N];
    try contradiction; reflexivity.
Qed.

Lemma rainfall_partition_given_CN
  (P : R) (th : list R) (days : Z)
  (SRinhb Bunds zBund pct Soil_CN AdjCN zCN nComp CN : R)
  (p p' : SoilProfile) :
  SRinhb = 0 -> (Bunds = 0 \/ zBund < 0.001) ->
  adjusted_CN th pct Soil_CN AdjCN zCN nComp p = (Ok CN, p') ->
  rainfall_partition P th days SRinhb Bunds zBund pct Soil_CN AdjCN zCN nComp p
  = (ri <- partition P CN ;; ret (fst ri, snd ri, 0%Z)) p'.
Proof.
  intros HSR HB Hadj.
  rewrite rainfall_partition_allowed
    by (apply runoff_allowed_true; split; assumption).
  unfold bind at 1. rewrite Hadj. reflexivity.
Qed.

(** C2 (as amended): no guard precedes the division.  For an adjusted
    curve number [CN < 0] the retention [S = 25400/CN - 254] is computed
    (it is below -254) and the partition goes on with it; for [CN = 0] the
    division itself raises [ZeroDivisionError]. *)
Theorem nonpositive_CN_is_not_guarded
  (P : R) (th : list R) (days : Z)
  (SRinhb Bunds zBund pct Soil_CN AdjCN zCN nComp CN : R)
  (p p' : SoilProfile) :
  SRinhb = 0 -> (Bunds = 0 \/ zBund < 0.001) ->
  adjusted_CN th pct Soil_CN AdjCN zCN nComp p = (Ok CN, p') ->
  CN <= 0 ->
  let run :=
    rainfall_partition P th days SRinhb Bunds zBund pct Soil_CN AdjCN zCN
      nComp p in
  let S := 25400 / CN - 254 in
  let term := P - 5 / 100 * S in
  let D := P + (1 - 5 / 100) * S in
  (CN = 0 -> run = (Raise ZeroDivisionError, p')) /\
  (CN < 0 ->
     retention CN p' = (Ok S, p') /\ S < -254 /\
     (term <= 0 -> run = (Ok (0, P, 0%Z), p')) /\
     (0 < term -> D <> 0 ->
        run = (Ok (term ^ 2 / D, P - term ^ 2 / D, 0%Z), p')) /\
     (0 < term -> D = 0 -> run = (Raise ZeroDivisionError, p'))).
Proof.
  intros HSR HB Hadj HCN run S term D. subst run.
  rewrite (rainfall_partition_given_CN _ _ _ _ _ _ _ _ _ _ _ CN p p')
    by assumption.
  split.
  - intros ->. unfold bind. rewrite partition_zero_CN. reflexivity.
  - intros Hneg.
    destruct (partition_nonzero_CN P CN p') as (Hle & Hgt & Hz); [lra |].
    split; [apply retention_value; lra |].
    split; [apply retention_neg; assumption |].
    repeat split.
    + intros Ht. unfold bind. rewrite (Hle Ht). reflexivity.
    + intros Ht HD. unfold bind. rewrite (Hgt Ht HD). reflexivity.
    + intros Ht HD. unfold bind. rewrite (Hz Ht HD). reflexivity.
Qed.

Lemma adjusted_CN_plain (th : list R) (pct Soil_CN AdjCN zCN nComp : R)
  (p : SoilProfile) :
  AdjCN <> 1 ->
  adjusted_CN th pct Soil_CN AdjCN zCN nComp p
  = (Ok (Soil_CN * (1 + pct / 100)), p).
Proof.
  intros H. unfold adjusted_CN.
  destruct (Req_dec_T AdjCN 1); [contradiction | reflexivity].
Qed.

Lemma adjusted_CN_example (CN : R) :
  adjusted_CN [] 0 CN 0 (3 / 10) 0 empty_profile = (Ok CN, empty_profile).
Proof.
  rewrite adjusted_CN_plain by lra. f_equal. f_equal. lra.
Qed.

Lemma nonpositive_CN_is_not_guarded_witness :
  let run := rainfall_partition 10 [] 0 0 0 0 0 (-50) 0 (3 / 10) 0 empty_profile in
  let S := 25400 / (-50) - 254 in
  let term := 10 - 5 / 100 * S in
  let D := 10 + (1 - 5 / 100) * S in
  (-50 = 0 -> run = (Raise ZeroDivisionError, empty_profile)) /\
  (-50 < 0 ->
     retention (-50) empty_profile = (Ok S, empty_profile) /\ S < -254 /\
     (term <= 0 -> run = (Ok (0, 10, 0%Z), empty_profile)) /\
     (0 < term -> D <> 0 ->
        run = (Ok (term ^ 2 / D, 10 - term ^ 2 / D, 0%Z), empty_profile)) /\
     (0 < term -> D = 0 -> run = (Raise ZeroDivisionError, empty_profile))).
Proof.
  apply (nonpositive_CN_is_not_guarded 10 [] 0 0 0 0 0 (-50) 0 (3 / 10) 0 (-50)
           empty_profile empty_profile).
  - reflexivity.
  - left; reflexivity.
  - apply adjusted_CN_example.
  - lra.
Defined.

(** C2, counterexample: with the curve number -50 the call returns a
    runoff and an infiltration; nothing is raised. *)
Lemma negative_CN_returns :
  adjusted_CN [] 0 (-50) 0 (3 / 10) 0 empty_profile = (Ok (-50), empty_profile) /\
  -50 <= 0 /\
  exists Runoff Infl,
    rainfall_partition 10 [] 0 0 0 0 0 (-50) 0 (3 / 10) 0 empty_profile
    = (Ok (Runoff, Infl, 0%Z), empty_profile).
Proof.
  split; [apply adjusted_CN_example |]. split; [lra |].
  rewrite (rainfall_partition_given_CN _ _ _ _ _ _ _ _ _ _ _ (-50)
             empty_profile empty_profile);
    [| reflexivity | left; reflexivity | apply adjusted_CN_example].
  destruct (partition_nonzero_CN 10 (-50) empty_profile) as (_ & Hgt & _);
    [lra |].
  eexists _, _. unfold bind. rewrite Hgt; [reflexivity | |].
  - replace (25400 / -50) with (-508) by lra. lra.
  - replace (25400 / -50) with (-508) by lra. lra.
Qed.

(** C6: if surface runoff is inhibited, or bunds are present with a height
    of 0.001 or more, the call returns [Runoff = 0], [Infl = P] and the
    submerged-day count it was given, for every precipitation; in every
    other case the count is reset to 0 before the curve-number partition,
    so every triple returned carries 0 (and a triple is returned whenever
    the plain curve number lies in (0, 100] and [P >= 0]). *)
Theorem bunds_or_inhibition_override
  (P : R) (th : list R) (days : Z)
  (SRinhb Bunds zBund pct Soil_CN AdjCN zCN nComp : R) (p : SoilProfile) :
  let run :=
    rainfall_partition P th days SRinhb Bunds zBund pct Soil_CN AdjCN zCN
      nComp p in
  let overridden := SRinhb <> 0 \/ (Bunds <> 0 /\ 0.001 <= zBund) in
  (overridden -> run = (Ok (0, P, days), p)) /\
  (~ overridden ->
     run = (CN <- adjusted_CN th pct Soil_CN AdjCN zCN nComp ;;
            ri <- partition P CN ;;
            ret (fst ri, snd ri, 0%Z)) p /\
     (forall Runoff Infl d p',
        run = (Ok (Runoff, Infl, d), p') -> d = 0%Z) /\
     (AdjCN <> 1 -> 0 <= P -> 0 < Soil_CN * (1 + pct / 100) <= 100 ->
      exists Runoff Infl, run = (Ok (Runoff, Infl, 0%Z), p))).
Proof.
  intros run overridden. subst run overridden. split.
  - intros H. apply runoff_allowed_false in H.
    unfold rainfall_partition. rewrite H. reflexivity.
  - intros H.
    assert (Hal : runoff_allowed SRinhb Bunds zBund = true).
    { destruct (runoff_allowed SRinhb Bunds zBund) eqn:E; [reflexivity |].
      exfalso. apply H. apply runoff_allowed_false. assumption. }
    rewrite rainfall_partition_allowed by assumption.
    split; [reflexivity |]. split.
    + intros Runoff Infl d p'. unfold bind.
      destruct (adjusted_CN _ _ _ _ _ _ p) as [[CN | e] p1]; [| discriminate].
      destruct (partition P CN p1) as [[ri | e] p2]; [| discriminate].
      unfold ret. intros E. injection E as _ _ E _. symmetry. exact E.
    + intros Hadj HP HCN.
      destruct (partition_spec P _ p HP HCN) as (Runoff & Infl & Hpart & _).
      exists Runoff, Infl. unfold bind at 1.
      rewrite adjusted_CN_plain by assumption.
      unfold bind. rewrite Hpart. reflexivity.
Qed.

Lemma bunds_or_inhibition_override_witness :
  rainfall_partition 10 [] 3 0 1 0.2 0 75 0 (3 / 10) 0 empty_profile
  = (Ok (0, 10, 3%Z), empty_profile)
  /\ exists Runoff Infl,
       rainfall_partition 10 [] 3 0 0 0 0 75 0 (3 / 10) 0 empty_profile
       = (Ok (Runoff, Infl, 0%Z), empty_profile).
Proof.
  split.
  - apply (proj1 (bunds_or_inhibition_override 10 [] 3 0 1 0.2 0 75 0 (3 / 10)
                    0 empty_profile)).
    right. split; lra.
  - destruct (proj2 (bunds_or_inhibition_override 10 [] 3 0 0 0 0 75 0 (3 / 10)
                       0 empty_profile)) as (_ & _ & H).
    + intros [H | [H _]]; apply H; reflexivity.
    + apply H; lra.
Defined.

(** ** Further properties of the partition *)

(** The partition in closed form, for a curve number in (0, 100]. *)
Lemma partition_closed_form (P CN : R) (p : SoilProfile) :
  0 <= P -> 0 < CN <= 100 ->
  let S := 25400 / CN - 254 in
  let t := P - 5 / 100 * S in
  (t <= 0 /\ partition P CN p = (Ok (0, P), p))
  \/ (0 < t /\ 0 < t + S /\
      partition P CN p = (Ok (t ^ 2 / (t + S), P - t ^ 2 / (t + S)), p)).
Proof.
  intros HP HCN S t.
  pose proof (retention_nonneg CN HCN) as HS. fold S in HS.
  destruct (partition_nonzero_CN P CN p) as (Hle & Hgt & _); [lra |].
  fold S in Hle, Hgt. fold t in Hle, Hgt.
  destruct (Rle_dec t 0) as [Ht | Ht].
  - left. split; [assumption | apply Hle; assumption].
  - right. assert (Ht' : 0 < t) by lra.
    assert (HD : P + (1 - 5 / 100) * S = t + S) by (unfold t; lra).
    split; [assumption |]. split; [lra |].
    rewrite <- HD. apply Hgt; lra.
Qed.

(** [t^2 / (t + S)] grows with [t] and shrinks with [S]. *)
Lemma quotient_monotone (t1 t2 S1 S2 : R) :
  0 < t1 <= t2 -> 0 <= S2 <= S1 ->
  t1 ^ 2 / (t1 + S1) <= t2 ^ 2 / (t2 + S2).
Proof.
  intros Ht HS.
  apply Rmult_le_reg_r with ((t1 + S1) * (t2 + S2)); [nra |].
  replace (t1 ^ 2 / (t1 + S1) * ((t1 + S1) * (t2 + S2)))
    with (t1 ^ 2 * (t2 + S2)) by (field; lra).
  replace (t2 ^ 2 / (t2 + S2) * ((t1 + S1) * (t2 + S2)))
    with (t2 ^ 2 * (t1 + S1)) by (field; lra).
  assert (0 <= t1 * t2 * (t2 - t1)) by (apply Rmult_le_pos; nra).
  assert (0 <= S2 * (t2 ^ 2 - t1 ^ 2)) by (apply Rmult_le_pos; nra).
  assert (0 <= (S1 - S2) * t2 ^ 2) by (apply Rmult_le_pos; nra).
  nra.
Qed.

Lemma quotient_bounds (t S : R) :
  0 < t -> 0 <= S -> 0 <= t ^ 2 / (t + S) <= t.
Proof.
  intros Ht HS. split.
  - apply Rmult_le_reg_r with (t + S); [lra |].
    replace (t ^ 2 / (t + S) * (t + S)) with (t ^ 2) by (field; lra). nra.
  - apply Rmult_le_reg_r with (t + S); [lra |].
    replace (t ^ 2 / (t + S) * (t + S)) with (t ^ 2) by (field; lra). nra.
Qed.

(** X3: without moisture adjustment, a higher curve number gives no less
    runoff for the same rain. *)
Theorem higher_curve_number_more_runoff
  (P : R) (th : list R) (days : Z)
  (SRinhb Bunds zBund pct CN1 CN2 AdjCN zCN nComp : R) (p : SoilProfile) :
  0 <= P ->
  SRinhb = 0 -> (Bunds = 0 \/ zBund < 0.001) ->
  AdjCN <> 1 ->
  0 < CN1 * (1 + pct / 100) ->
  CN1 * (1 + pct / 100) <= CN2 * (1 + pct / 100) ->
  CN2 * (1 + pct / 100) <= 100 ->
  exists Runoff1 Infl1 Runoff2 Infl2,
    rainfall_partition P th days SRinhb Bunds zBund pct CN1 AdjCN zCN nComp p
    = (Ok (Runoff1, Infl1, 0%Z), p) /\
    rainfall_partition P th days SRinhb Bunds zBund pct CN2 AdjCN zCN nComp p
    = (Ok (Runoff2, Infl2, 0%Z), p) /\
    Runoff1 <= Runoff2 /\ Infl2 <= Infl1.
Proof.
  intros HP HSR HB Hadj H1 H12 H2.
  set (c1 := CN1 * (1 + pct / 100)) in *.
  set (c2 := CN2 * (1 + pct / 100)) in *.
  rewrite (rainfall_partition_given_CN _ _ _ _ _ _ _ _ _ _ _ c1 p p);
    [| assumption | assumption | apply adjusted_CN_plain; assumption].
  rewrite (rainfall_partition_given_CN _ _ _ _ _ _ _ _ _ _ _ c2 p p);
    [| assumption | assumption | apply adjusted_CN_plain; assumption].
  assert (HC1 : 0 < c1 <= 100) by lra.
  assert (HC2 : 0 < c2 <= 100) by lra.
  pose proof (retention_nonneg c1 HC1) as HS1.
  pose proof (retention_nonneg c2 HC2) as HS2.
  assert (HS : 25400 / c2 - 254 <= 25400 / c1 - 254).
  { assert (/ c2 <= / c1) by (apply Rinv_le_contravar; lra).
    unfold Rdiv. nra. }
  set (S1 := 25400 / c1 - 254) in *. set (S2 := 25400 / c2 - 254) in *.
  destruct (partition_closed_form P c1 p HP HC1)
    as [(Ht1 & E1) | (Ht1 & HD1 & E1)];
    destruct (partition_closed_form P c2 p HP HC2)
      as [(Ht2 & E2) | (Ht2 & HD2 & E2)];
    fold S1 in Ht1, E1; fold S2 in Ht2, E2;
    try fold S1 in HD1; try fold S2 in HD2;
    unfold bind; rewrite E1, E2; cbn [fst snd];
    eexists _, _, _, _; (split; [reflexivity |]); (split; [reflexivity |]).
  - lra.
  - pose proof (quotient_bounds _ _ Ht2 HS2). lra.
  - lra.
  - pose proof (quotient_monotone (P - 5 / 100 * S1) (P - 5 / 100 * S2) S1 S2
                  ltac:(lra) ltac:(lra)).
    lra.
Qed.

Lemma higher_curve_number_more_runoff_witness :
  exists Runoff1 Infl1 Runoff2 Infl2,
    rainfall_partition 20 [] 3 0 0 0 0 60 0 (3 / 10) 0 empty_profile
    = (Ok (Runoff1, Infl1, 0%Z), empty_profile) /\
    rainfall_partition 20 [] 3 0 0 0 0 75 0 (3 / 10) 0 empty_profile
    = (Ok (Runoff2, Infl2, 0%Z), empty_profile) /\
    Runoff1 <= Runoff2 /\ Infl2 <= Infl1.
Proof.
  apply (higher_curve_number_more_runoff 20 [] 3 0 0 0 0 60 75 0 (3 / 10) 0
           empty_profile); lra.
Defined.

(** *** Rounding *)

Lemma Int_part_IZR (z : Z) : Int_part (IZR z) = z.
Proof. symmetry. apply Int_part_spec. lra. Qed.

Lemma round_cases (x : R) :
  round x = Int_part x
  \/ (round x = (Int_part x + 1)%Z /\ IZR (Int_part x) + 1 / 2 <= x).
Proof.
  unfold round.
  assert (Hf : frac_part x = x - IZR (Int_part x)) by reflexivity.
  destruct (Rlt_dec (frac_part x) (1 / 2)) as [H1 | H1]; [left; reflexivity |].
  destruct (Rlt_dec (1 / 2) (frac_part x)) as [H2 | H2].
  - right. split; [reflexivity | lra].
  - destruct (Z.even (Int_part x)); [left; reflexivity |].
    right. split; [reflexivity | lra].
Qed.

Lemma round_IZR (z : Z) : round (IZR z) = z.
Proof.
  destruct (round_cases (IZR z)) as [E | [_ H]]; rewrite Int_part_IZR in *.
  - exact E.
  - lra.
Qed.

Lemma round_between (a b : Z) (x : R) :
  IZR a <= x <= IZR b -> (a <= round x <= b)%Z.
Proof.
  intros [Ha Hb]. destruct (base_Int_part x) as [Hle Hgt].
  assert (H1 : (a <= Int_part x)%Z).
  { assert (a < Int_part x + 1)%Z; [| lia].
    apply lt_IZR. rewrite plus_IZR. lra. }
  assert (H2 : (Int_part x <= b)%Z) by (apply le_IZR; lra).
  destruct (round_cases x) as [E | [E Hhalf]]; rewrite E.
  - lia.
  - assert (Int_part x < b)%Z; [| lia].
    apply lt_IZR. lra.
Qed.

(** *** What the weighting loop does to the profile *)

Lemma lowered_refl (zCN : R) (l : list R) : Forall2 (lowered zCN) l l.
Proof. induction l; constructor; [left; reflexivity | assumption]. Qed.

Lemma lowered_trans (zCN : R) (l1 l2 l3 : list R) :
  Forall2 (lowered zCN) l1 l2 -> Forall2 (lowered zCN) l2 l3 ->
  Forall2 (lowered zCN) l1 l3.
Proof.
  intros H12. revert l3. induction H12 as [| a b r1 r2 Hab _ IH];
    intros l3 H23; inversion H23 as [| b' c r2' r3 Hbc Hr]; subst;
    constructor; [| apply IH; assumption].
  destruct Hab as [-> | [Hgt ->]]; [exact Hbc |].
  destruct Hbc as [-> | [Hgt' ->]]; right; split; auto.
Qed.

Lemma lowered_list_set (zCN d : R) (l : list R) (ii : nat) :
  nth_error l ii = Some d -> d > zCN ->
  Forall2 (lowered zCN) l (list_set ii zCN l).
Proof.
  revert ii. induction l as [| x r IH]; intros [| j] Hn Hgt;
    simpl in *; try discriminate.
  - injection Hn as ->. constructor; [| apply lowered_refl].
    right. split; [assumption | reflexivity].
  - constructor; [left; reflexivity | apply IH; assumption].
Qed.

Lemma length_list_set_R (ii : nat) (v : R) (l : list R) :
  List.length (list_set ii v l) = List.length l.
Proof.
  revert ii. induction l as [| x r IH]; intros [| j]; simpl;
    try reflexivity. now rewrite IH.
Qed.

Lemma nth_error_some_lt (l : list R) (ii : nat) :
  (ii < List.length l)%nat -> exists d, nth_error l ii = Some d.
Proof.
  intros H. destruct (nth_error l ii) as [d |] eqn:E; [exists d; reflexivity |].
  apply nth_error_None in E. lia.
Qed.

Lemma bind_inv {A B : Type} (m : M A) (k : A -> M B) (p p' : SoilProfile)
  (r : result B) :
  bind m k p = (r, p') ->
  (exists a p1, m p = (Ok a, p1) /\ k a p1 = (r, p'))
  \/ (exists e, m p = (Raise e, p') /\ r = Raise e).
Proof.
  unfold bind. destruct (m p) as [[a | e] p1]; intros H.
  - left. exists a, p1. split; [reflexivity | exact H].
  - right. exists e. injection H as <- <-. split; reflexivity.
Qed.

Lemma get_dzsum_inv (ii : nat) (p p' : SoilProfile) (r : result R) :
  get_dzsum ii p = (r, p') ->
  p' = p /\
  ((exists d, nth_error (dzsum p) ii = Some d /\ r = Ok d)
   \/ (nth_error (dzsum p) ii = None /\ r = Raise IndexError)).
Proof.
  unfold get_dzsum, index.
  destruct (nth_error (dzsum p) ii) as [d |]; intros H;
    injection H as <- <-; split; try reflexivity.
  - left. exists d. split; reflexivity.
  - right. split; reflexivity.
Qed.

Lemma div_inv (a b : R) (p p' : SoilProfile) (r : result R) :
  div a b p = (r, p') ->
  p' = p /\ ((b <> 0 /\ r = Ok (a / b)) \/ (b = 0 /\ r = Raise ZeroDivisionError)).
Proof.
  unfold div. destruct (Req_dec_T b 0); intros H; injection H as <- <-;
    split; auto.
Qed.

Lemma clamp_step (zCN d : R) (ii : nat) (p : SoilProfile) :
  nth_error (dzsum p) ii = Some d ->
  exists p1,
    (if Rgt_dec d zCN then set_dzsum ii zCN else ret tt) p = (Ok tt, p1) /\
    th_wp p1 = th_wp p /\ th_fc p1 = th_fc p /\
    Forall2 (lowered zCN) (dzsum p) (dzsum p1) /\
    nth_error (dzsum p1) ii = Some (if Rgt_dec d zCN then zCN else d).
Proof.
  intros Hd. destruct (Rgt_dec d zCN) as [Hgt | _].
  - unfold set_dzsum.
    assert (Hlt : (ii < List.length (dzsum p))%nat)
      by (apply nth_error_Some; congruence).
    pose proof Hlt as Hlt'. apply Nat.ltb_lt in Hlt'. rewrite Hlt'.
    eexists. split; [reflexivity |]. cbn [th_wp th_fc dzsum].
    repeat split.
    + apply (lowered_list_set zCN d); assumption.
    + clear - Hlt. revert ii Hlt.
      induction (dzsum p) as [| x r IH]; intros [| j] Hlt; simpl in *;
        try lia; [reflexivity | apply IH; lia].
  - exists p. repeat split; [apply lowered_refl | assumption].
Qed.

Lemma weighting_loop_effect (zCN : R) (idx : list nat) :
  forall xx wrel p r p',
    weighting_loop zCN idx xx wrel p = (r, p') ->
    th_wp p' = th_wp p /\ th_fc p' = th_fc p /\
    Forall2 (lowered zCN) (dzsum p) (dzsum p').
Proof.
  induction idx as [| ii rest IH]; intros xx wrel p r p' H.
  - injection H as <- <-. repeat split. apply lowered_refl.
  - cbn [weighting_loop] in H.
    apply bind_inv in H. destruct H as [(d & p0 & Hg & H) | (e & Hg & _)];
      apply get_dzsum_inv in Hg; destruct Hg as [-> Hg];
      [| repeat split; apply lowered_refl].
    destruct Hg as [(d0 & Hd & E) | [_ E]]; [| discriminate].
    injection E as ->.
    destruct (clamp_step zCN d0 ii p Hd) as (p1 & E1 & Hwp & Hfc & Hlow & Hn).
    cbv beta in H.
    apply bind_inv in H. destruct H as [(u & p1' & Hs & H) | (e & Hs & _)];
      pose proof (eq_trans (eq_sym Hs) E1) as E2; [| discriminate].
    injection E2 as _ ->. cbv beta in H.
    apply bind_inv in H. destruct H as [(d1 & p2 & Hg & H) | (e & Hg & _)];
      apply get_dzsum_inv in Hg; destruct Hg as [-> _];
      [| repeat split; assumption].
    cbv beta in H.
    apply bind_inv in H. destruct H as [(q & p3 & Hq & H) | (e & Hq & _)];
      apply div_inv in Hq; destruct Hq as [-> _];
      [| repeat split; assumption].
    destruct (IH _ _ _ _ _ H) as (Hwp' & Hfc' & Hlow').
    repeat split; try congruence.
    eapply lowered_trans; eassumption.
Qed.

(** X5: whatever its arguments, a call leaves the wilting points and field
    capacities of the profile alone and keeps every cumulative depth as it
    was or lowers it to [Soil_zCN]. *)
Theorem profile_is_only_lowered_to_zCN
  (P : R) (th : list R) (days : Z)
  (SRinhb Bunds zBund pct Soil_CN AdjCN zCN nComp : R) (p : SoilProfile) :
  let p' :=
    snd (rainfall_partition P th days SRinhb Bunds zBund pct Soil_CN AdjCN
           zCN nComp p) in
  th_wp p' = th_wp p /\ th_fc p' = th_fc p /\
  Forall2 (lowered zCN) (dzsum p) (dzsum p').
Proof.
  cbv zeta.
  assert (Hsame : forall q, q = p ->
            th_wp q = th_wp p /\ th_fc q = th_fc p /\
            Forall2 (lowered zCN) (dzsum p) (dzsum q)).
  { intros q ->. repeat split. apply lowered_refl. }
  destruct (runoff_allowed SRinhb Bunds zBund) eqn:Hal.
  2:{ apply Hsame. unfold rainfall_partition. rewrite Hal. reflexivity. }
  destruct (Req_dec_T AdjCN 1) as [Hadj | Hadj].
  2:{ apply Hsame. rewrite rainfall_partition_allowed by assumption.
      rewrite snd_bind.
      - rewrite adjusted_CN_plain by assumption. reflexivity.
      - intros CN. apply unchanged_bind; [apply unchanged_partition |].
        intros ri. apply unchanged_ret. }
  destruct (Z.ltb_spec (comp_sto_of nComp zCN (dzsum p)) 0) as [Hneg | Hpos].
  - apply Hsame. rewrite rainfall_partition_allowed by assumption.
    rewrite snd_bind.
    + unfold adjusted_CN. destruct (Req_dec_T AdjCN 1); [| contradiction].
      unfold moisture_adjusted_CN, np_zeros.
      apply Z.ltb_lt in Hneg. rewrite Hneg. reflexivity.
    + intros CN. apply unchanged_bind; [apply unchanged_partition |].
      intros ri. apply unchanged_ret.
  - rewrite rainfall_partition_profile by assumption.
    destruct (weighting_loop zCN (range (comp_sto_of nComp zCN (dzsum p))) 0
                (repeat 0 (Z.to_nat (comp_sto_of nComp zCN (dzsum p)))) p)
      as [r q] eqn:E.
    apply (weighting_loop_effect _ _ _ _ _ _ _ E).
Qed.

(** *** The moisture adjustment on a well-formed profile *)

Lemma comp_sto_exact (zCN : R) (l : list R) :
  comp_sto_of (INR (List.length l)) zCN l
  = Z.of_nat (List.length l - count_ge zCN l).
Proof.
  pose proof (count_ge_le_length zCN l) as Hc.
  assert (H : forall k, (k <= List.length l)%nat ->
            int (INR (List.length l) - INR k) = Z.of_nat (List.length l - k)).
  { intros k Hk. rewrite <- minus_INR by assumption.
    rewrite INR_IZR_INZ. apply int_IZR. }
  unfold comp_sto_of. destruct (count_ge zCN l) as [| c] eqn:E.
  - rewrite <- (H 0%nat) by lia. simpl INR. f_equal. lra.
  - apply H. assumption.
Qed.

Lemma bind_ok_R {A B : Type} (m : M A) (k : A -> M B) (p p1 : SoilProfile)
  (a : A) :
  m p = (Ok a, p1) -> bind m k p = k a p1.
Proof. intros H. unfold bind. rewrite H. reflexivity. Qed.

Lemma weighting_loop_returns (zCN : R) (idx : list nat) :
  zCN <> 0 ->
  forall xx wrel p,
    (forall ii, In ii idx -> (ii < List.length (dzsum p))%nat) ->
    exists xw p',
      weighting_loop zCN idx xx wrel p = (Ok xw, p') /\
      List.length (snd xw) = List.length wrel.
Proof.
  intros Hz. induction idx as [| ii rest IH]; intros xx wrel p Hidx.
  - exists (xx, wrel), p. split; reflexivity.
  - destruct (nth_error_some_lt (dzsum p) ii (Hidx ii (or_introl eq_refl)))
      as (d & Hd).
    destruct (clamp_step zCN d ii p Hd) as (p1 & E1 & _ & _ & Hlow & Hn).
    assert (Hlen : List.length (dzsum p1) = List.length (dzsum p))
      by (symmetry; eapply Forall2_length; exact Hlow).
    cbn [weighting_loop].
    rewrite (bind_ok_R _ _ p p d)
      by (unfold get_dzsum, index; rewrite Hd; reflexivity).
    rewrite (bind_ok_R _ _ p p1 tt) by exact E1.
    rewrite (bind_ok_R _ _ p1 p1 (if Rgt_dec d zCN then zCN else d))
      by (unfold get_dzsum, index; rewrite Hn; reflexivity).
    rewrite (bind_ok_R _ _ p1 p1
               ((if Rgt_dec d zCN then zCN else d) / zCN))
      by (unfold div; destruct (Req_dec_T zCN 0);
          [contradiction | reflexivity]).
    match goal with
    | |- context [weighting_loop zCN rest ?x ?w p1] =>
        destruct (IH x w p1) as (xw & p' & E & Hl)
    end.
    { intros jj Hj. rewrite Hlen. apply Hidx. right. exact Hj. }
    exists xw, p'. split; [exact E |].
    rewrite Hl. apply length_list_set_R.
Qed.

Lemma wetness_loop_returns (th wrel : list R) (p : SoilProfile)
  (idx : list nat) :
  (forall ii, In ii idx ->
     (ii < List.length (th_wp p))%nat /\ (ii < List.length (th_fc p))%nat /\
     (ii < List.length th)%nat /\ (ii < List.length wrel)%nat) ->
  (forall ii wp fc,
     nth_error (th_wp p) ii = Some wp -> nth_error (th_fc p) ii = Some fc ->
     fc <> wp) ->
  forall wet, exists wet', wetness_loop th wrel idx wet p = (Ok wet', p).
Proof.
  intros Hidx Hne. induction idx as [| ii rest IH]; intros wet.
  - exists wet. reflexivity.
  - destruct (Hidx ii (or_introl eq_refl)) as (H1 & H2 & H3 & H4).
    destruct (nth_error_some_lt _ _ H1) as (wp & Ewp).
    destruct (nth_error_some_lt _ _ H2) as (fc & Efc).
    destruct (nth_error_some_lt _ _ H3) as (t0 & Eth).
    destruct (nth_error_some_lt _ _ H4) as (w & Ew).
    cbn [wetness_loop].
    assert (Gwp : get_th_wp ii p = (Ok wp, p))
      by (unfold get_th_wp, index; rewrite Ewp; reflexivity).
    assert (Gfc : get_th_fc ii p = (Ok fc, p))
      by (unfold get_th_fc, index; rewrite Efc; reflexivity).
    rewrite (bind_ok_R _ _ p p wp Gwp).
    rewrite (bind_ok_R _ _ p p t0)
      by (unfold index; rewrite Eth; reflexivity).
    rewrite (bind_ok_R _ _ p p w)
      by (unfold index; rewrite Ew; reflexivity).
    rewrite (bind_ok_R _ _ p p wp Gwp).
    rewrite (bind_ok_R _ _ p p fc Gfc).
    rewrite (bind_ok_R _ _ p p wp Gwp).
    rewrite (bind_ok_R _ _ p p ((Rmax wp t0 - wp) / (fc - wp))).
    2:{ unfold div. destruct (Req_dec_T (fc - wp) 0) as [E | _];
          [| reflexivity].
        exfalso. apply (Hne ii wp fc Ewp Efc). lra. }
    apply IH. intros jj Hj. apply Hidx. right. exact Hj.
Qed.

Lemma clipped_between (bot top : Z) (wet : R) :
  let wet_top :=
    if Rgt_dec wet 1 then 1 else if Rlt_dec wet 0 then 0 else wet in
  (Z.min bot top
   <= round (IZR bot + (IZR top - IZR bot) * wet_top)
   <= Z.max bot top)%Z.
Proof.
  cbv zeta.
  set (w := if Rgt_dec wet 1 then 1 else if Rlt_dec wet 0 then 0 else wet).
  assert (Hw : 0 <= w <= 1).
  { unfold w. destruct (Rgt_dec wet 1); [lra |].
    destruct (Rlt_dec wet 0); lra. }
  apply round_between.
  destruct (Z.le_ge_cases bot top) as [H | H].
  - rewrite Z.min_l, Z.max_r by assumption.
    apply IZR_le in H. split; nra.
  - rewrite Z.min_r, Z.max_l by assumption.
    apply IZR_le in H. split; nra.
Qed.

(** X6: on a well-formed profile, and with a non-zero [Soil_zCN], the
    moisture adjustment always yields a curve number, and that number is
    an integer between [CNbot] and [CNtop], in whichever order they
    stand. *)
Theorem moisture_adjusted_CN_is_between_bounds
  (th : list R) (pct Soil_CN AdjCN zCN nComp : R) (p : SoilProfile) :
  AdjCN = 1 ->
  zCN <> 0 ->
  well_formed th nComp p ->
  let CN := Soil_CN * (1 + pct / 100) in
  exists k p',
    adjusted_CN th pct Soil_CN AdjCN zCN nComp p = (Ok (IZR k), p') /\
    (Z.min (CNbot_of CN) (CNtop_of CN) <= k
     <= Z.max (CNbot_of CN) (CNtop_of CN))%Z.
Proof.
  intros Hadj Hz (Hn & Hwp & Hfc & Hth & Hne) CN.
  unfold adjusted_CN. destruct (Req_dec_T AdjCN 1) as [_ | N];
    [| contradiction].
  fold CN. unfold moisture_adjusted_CN.
  fold (CNbot_of CN). fold (CNtop_of CN).
  rewrite Hn, comp_sto_exact.
  set (m := (List.length (dzsum p) - count_ge zCN (dzsum p))%nat).
  rewrite np_zeros_nonneg by lia.
  unfold range. rewrite Nat2Z.id.
  change (bind (ret ?a) ?k p) with (k a p). cbv beta.
  destruct (weighting_loop_returns zCN (seq 0 m) Hz 0 (repeat 0 m) p)
    as (xw & p1 & E1 & Hl1).
  { intros ii Hi. apply in_seq in Hi. unfold m in Hi. lia. }
  rewrite repeat_length in Hl1.
  destruct (weighting_loop_effect _ _ _ _ _ _ _ E1) as (Hwp1 & Hfc1 & _).
  rewrite (bind_ok_R _ _ p p1 xw E1).
  destruct (wetness_loop_returns th (snd xw) p1 (seq 0 m)) with (wet := 0)
    as (wet & E2).
  { intros ii Hi. apply in_seq in Hi. unfold m in Hi.
    rewrite Hwp1, Hfc1. lia. }
  { rewrite Hwp1, Hfc1. exact Hne. }
  rewrite (bind_ok_R _ _ p1 p1 wet E2).
  eexists _, p1. split; [reflexivity |].
  apply clipped_between.
Qed.

(** Both compartments of [clamped_profile] lie above a [Soil_zCN] of 0.7
    and enter the two loops. *)
Lemma clamped_profile_well_formed :
  well_formed [0.2; 0.2] 2 clamped_profile.
Proof.
  unfold well_formed, clamped_profile. cbn [dzsum th_wp th_fc List.length].
  repeat split; try reflexivity.
  intros [| [| ii]] wp fc Hwp Hfc; cbn [nth_error] in *;
    try discriminate; try (destruct ii; discriminate);
    injection Hwp as <-; injection Hfc as <-; lra.
Qed.

Lemma moisture_adjusted_CN_is_between_bounds_witness :
  exists k p',
    adjusted_CN [0.2; 0.2] 0 75 1 0.7 2 clamped_profile = (Ok (IZR k), p') /\
    (Z.min (CNbot_of (75 * (1 + 0 / 100))) (CNtop_of (75 * (1 + 0 / 100)))
     <= k
     <= Z.max (CNbot_of (75 * (1 + 0 / 100))) (CNtop_of (75 * (1 + 0 / 100))))%Z.
Proof.
  apply (moisture_adjusted_CN_is_between_bounds [0.2; 0.2] 0 75 1 0.7 2
           clamped_profile).
  - reflexivity.
  - lra.
  - exact clamped_profile_well_formed.
Defined.

(** X7: when already the first compartment reaches [Soil_zCN], and so all
    do, no compartment enters the wetness sum: whatever the water content,
    the adjusted curve number is [CNbot], and the profile is untouched. *)
Theorem shallow_zCN_gives_CNbot
  (th : list R) (pct Soil_CN AdjCN zCN : R) (p : SoilProfile) :
  AdjCN = 1 ->
  Forall (fun d => d >= zCN) (dzsum p) ->
  let CN := Soil_CN * (1 + pct / 100) in
  adjusted_CN th pct Soil_CN AdjCN zCN (INR (List.length (dzsum p))) p
  = (Ok (IZR (CNbot_of CN)), p).
Proof.
  intros Hadj Hall CN.
  unfold adjusted_CN. destruct (Req_dec_T AdjCN 1) as [_ | N];
    [| contradiction].
  fold CN. unfold moisture_adjusted_CN.
  fold (CNbot_of CN). fold (CNtop_of CN).
  rewrite comp_sto_exact, (count_ge_all zCN _ Hall), Nat.sub_diag.
  change (Z.of_nat 0) with 0%Z.
  unfold np_zeros, range, bind, ret. simpl.
  destruct (Rgt_dec 0 1) as [H | _]; [lra |].
  destruct (Rlt_dec 0 0) as [H | _]; [lra |].
  replace (IZR (CNbot_of CN) + (IZR (CNtop_of CN) - IZR (CNbot_of CN)) * 0)
    with (IZR (CNbot_of CN)) by lra.
  rewrite round_IZR. reflexivity.
Qed.

Lemma shallow_zCN_gives_CNbot_witness :
  adjusted_CN [0.9; 0.9] 0 75 1 0.3 (INR 2)
    (mkProfile [0.3; 0.6] [0.1; 0.1] [0.3; 0.3])
  = (Ok (IZR (CNbot_of (75 * (1 + 0 / 100)))),
     mkProfile [0.3; 0.6] [0.1; 0.1] [0.3; 0.3]).
Proof.
  apply (shallow_zCN_gives_CNbot [0.9; 0.9] 0 75 1 0.3
           (mkProfile [0.3; 0.6] [0.1; 0.1] [0.3; 0.3])).
  - reflexivity.
  - cbn [dzsum]. repeat constructor; lra.
Defined.

Lemma partition_ignores_profile (P CN : R) (p p' : SoilProfile) :
  partition P CN p' = (fst (partition P CN p), p').
Proof.
  unfold partition, retention, bind, div, ret, raise.
  destruct (Req_dec_T CN 0); [reflexivity |].
  destruct (Rle_dec _ _); [reflexivity |].
  destruct (Req_dec_T _ 0); reflexivity.
Qed.

(** X8: with the moisture adjustment switched off, the soil profile, the
    water contents, [Soil_zCN] and [Soil_nComp] play no part: the outcome
    is the same for any of them, and the profile is handed back as it
    came. *)
Theorem without_moisture_adjustment_the_soil_is_ignored
  (P : R) (days : Z) (SRinhb Bunds zBund pct Soil_CN AdjCN : R)
  (th th' : list R) (zCN zCN' nComp nComp' : R) (p p' : SoilProfile) :
  AdjCN <> 1 ->
  rainfall_partition P th' days SRinhb Bunds zBund pct Soil_CN AdjCN zCN'
    nComp' p'
  = (fst (rainfall_partition P th days SRinhb Bunds zBund pct Soil_CN AdjCN
            zCN nComp p), p').
Proof.
  intros Hadj. unfold rainfall_partition.
  destruct (runoff_allowed SRinhb Bunds zBund); [| reflexivity].
  unfold bind at 1 3. rewrite !adjusted_CN_plain by assumption.
  unfold bind.
  rewrite (partition_ignores_profile P _ p p').
  destruct (partition P (Soil_CN * (1 + pct / 100)) p) as [[ri | e] q];
    reflexivity.
Qed.

Lemma without_moisture_adjustment_the_soil_is_ignored_witness :
  rainfall_partition 20 [0.2; 0.2] 3 0 0 0 0 75 0 0.3 2 clamped_profile
  = (fst (rainfall_partition 20 [] 3 0 0 0 0 75 0 (3 / 10) 0 empty_profile),
     clamped_profile).
Proof.
  apply (without_moisture_adjustment_the_soil_is_ignored 20 3 0 0 0 0 75 0
           [] [0.2; 0.2] (3 / 10) 0.3 0 2 empty_profile clamped_profile).
  lra.
Defined.

End RainfallPartitionProofs.

(** * Properties of [read_model_parameters] *)

Module ReadModelParametersProofs.

Import ReadModelParameters Lqa.

Local Open Scope Q_scope.

(** ** Soil-depth growth *)

Lemma Qltb_lt (x y : Q) : Qltb x y = true <-> x < y.
Proof.
  unfold Qltb. rewrite negb_true_iff. split.
  - intros H. apply Qnot_le_lt. intros Hle.
    apply Qle_bool_iff in Hle. congruence.
  - intros H. destruct (Qle_bool y x) eqn:E; [| reflexivity].
    apply Qle_bool_iff in E. exfalso. apply (Qlt_not_le _ _ H E).
Qed.

Lemma Qltb_ge (x y : Q) : Qltb x y = false <-> y <= x.
Proof.
  unfold Qltb. rewrite negb_false_iff. apply Qle_bool_iff.
Qed.

Lemma deficit_decreases (d : Q) :
  Qltb d 0.25 = true -> (deficit (d + 0.1) < deficit d)%nat.
Proof.
  intros H. unfold deficit. rewrite H. apply Qltb_lt in H.
  assert (Hy : 0 < (0.25 - d) * 10) by lra.
  pose proof (Qle_ceiling ((0.25 - d) * 10)) as Hup.
  assert (Hc : (0 < Qceiling ((0.25 - d) * 10))%Z).
  { rewrite Zlt_Qlt. change (inject_Z 0) with 0. lra. }
  destruct (Qltb (d + 0.1) 0.25) eqn:E; [| lia].
  assert (Hlt : (Qceiling ((0.25 - (d + 0.1)) * 10)
                 < Qceiling ((0.25 - d) * 10))%Z).
  { rewrite Zlt_Qlt.
    pose proof (Qceiling_lt ((0.25 - (d + 0.1)) * 10)) as H1.
    unfold Z.sub in H1. rewrite inject_Z_plus in H1.
    change (inject_Z (- (1))) with (- (1)) in H1.
    lra. }
  lia.
Qed.

Lemma slack_list_set (i : nat) (v : Q) (l : list Q) :
  (i < List.length l)%nat ->
  (slack (list_set i v l) + deficit (nth i l 0%Q) = slack l + deficit v)%nat.
Proof.
  unfold slack. revert i. induction l as [| x r IH]; intros i Hi; simpl in Hi.
  - lia.
  - destruct i as [| j]; simpl.
    + lia.
    + specialize (IH j ltac:(lia)). lia.
Qed.

Lemma length_list_set {A : Type} (i : nat) (v : A) (l : list A) :
  List.length (list_set i v l) = List.length l.
Proof.
  revert i. induction l as [| x r IH]; intros [| j]; simpl;
    try reflexivity. now rewrite IH.
Qed.

Lemma thicken_first_cases (idx : list nat) (s : Soil) :
  (exists i, In i idx /\ Qltb (nth i (dz s) 0) 0.25 = true /\
             thicken_first idx s = fill_nan (add_dz i s))
  \/ ((forall i, In i idx -> Qltb (nth i (dz s) 0) 0.25 = false) /\
      thicken_first idx s = s).
Proof.
  induction idx as [| i rest IH]; simpl.
  - right. split; [intros i [] | reflexivity].
  - destruct (Qltb (nth i (dz s) 0) 0.25) eqn:E.
    + left. exists i. auto.
    + destruct IH as [(j & Hin & Hj & Heq) | (Hall & Heq)].
      * left. exists j. auto.
      * right. split; [| assumption].
        intros j [<- | Hin]; [assumption | apply Hall; assumption].
Qed.

Lemma in_reversed_index (i : nat) (s : Soil) :
  In i (reversed_index s) <-> (i < List.length (dz s))%nat.
Proof.
  unfold reversed_index. rewrite <- in_rev, in_seq. lia.
Qed.

Lemma pass_cases (s : Soil) :
  (exists i, (i < List.length (dz s))%nat /\
             Qltb (nth i (dz s) 0) 0.25 = true /\
             pass s = fill_nan (add_dz i s))
  \/ (none_eligible s /\ pass s = s).
Proof.
  unfold pass. destruct (thicken_first_cases (reversed_index s) s)
    as [(i & Hin & Hi & Heq) | (Hall & Heq)].
  - left. exists i. rewrite <- in_reversed_index. auto.
  - right. split; [| assumption].
    intros i Hi. apply Hall. apply in_reversed_index. assumption.
Qed.

Lemma pass_slack (s : Soil) :
  pass s = s \/ (slack (dz (pass s)) < slack (dz s))%nat.
Proof.
  destruct (pass_cases s) as [(i & Hlen & Hi & Heq) | (_ & Heq)];
    [right | left; assumption].
  rewrite Heq. simpl.
  pose proof (slack_list_set i (nth i (dz s) 0 + 0.1) (dz s) Hlen).
  pose proof (deficit_decreases _ Hi). lia.
Qed.

(** Once a pass changes nothing, the loop spins. *)
Lemma soil_depth_loop_spins (zmax : Q) (s : Soil) :
  Qltb (zSoil s) (zmax + 0.1) = true -> pass s = s ->
  forall fuel, soil_depth_loop fuel zmax s = None.
Proof.
  intros Hc Hp fuel. induction fuel as [| f IH]; simpl; rewrite Hc.
  - reflexivity.
  - fold (pass s). rewrite Hp. exact IH.
Qed.

Lemma soil_depth_loop_step (fuel : nat) (zmax : Q) (s : Soil) :
  Qltb (zSoil s) (zmax + 0.1) = true ->
  soil_depth_loop (S fuel) zmax s = soil_depth_loop fuel zmax (pass s).
Proof. intros Hc. simpl. rewrite Hc. reflexivity. Qed.

Lemma soil_depth_loop_done (fuel : nat) (zmax : Q) (s : Soil) :
  Qltb (zSoil s) (zmax + 0.1) = false ->
  soil_depth_loop fuel zmax s = Some s.
Proof. intros Hc. destruct fuel; simpl; rewrite Hc; reflexivity. Qed.

(** C3 (as amended): the soil-depth loop either ends, after finitely many
    passes, with the total depth at least [Zmax + 0.1]; or it arrives at a
    column that is still too shallow and has no compartment thinner than
    0.25, where a pass changes nothing and the loop never ends.  No error
    is raised in either case. *)
Theorem soil_depth_loop_outcome (zmax : Q) (s : Soil) :
  (exists fuel s',
     soil_depth_loop fuel zmax s = Some s' /\
     s' = Nat.iter fuel pass s /\ zmax + 0.1 <= zSoil s')
  \/ (exists n,
        let s' := Nat.iter n pass s in
        zSoil s' < zmax + 0.1 /\ none_eligible s' /\ pass s' = s' /\
        forall fuel, soil_depth_loop fuel zmax s = None).
Proof.
  remember (slack (dz s)) as m eqn:Hm. revert s Hm.
  induction m as [m IH] using lt_wf_ind. intros s Hm.
  destruct (Qltb (zSoil s) (zmax + 0.1)) eqn:Hc.
  - destruct (pass_cases s) as [(i & Hlen & Hi & Heq) | (Hnone & Heq)].
    + assert (Hlt : (slack (dz (pass s)) < m)%nat).
      { destruct (pass_slack s) as [E | Hlt]; [| lia].
        exfalso. rewrite Heq in E.
        assert (E' : slack (dz (fill_nan (add_dz i s))) = slack (dz s))
          by (rewrite E; reflexivity).
        simpl in E'.
        pose proof (slack_list_set i (nth i (dz s) 0 + 0.1) (dz s) Hlen).
        pose proof (deficit_decreases _ Hi). lia. }
      destruct (IH _ Hlt (pass s) eq_refl)
        as [(fuel & s' & Hrun & Hit & Hz) | (n & Hz & Hnone & Hfix & Hrun)].
      * left. exists (S fuel), s'.
        rewrite soil_depth_loop_step by assumption.
        split; [assumption |]. split; [| assumption].
        rewrite Hit. symmetry. apply Nat.iter_succ_r.
      * right. exists (S n). cbv zeta.
        rewrite Nat.iter_succ_r.
        split; [assumption |]. split; [assumption |]. split; [assumption |].
        intros [| fuel].
        -- simpl. rewrite Hc. reflexivity.
        -- rewrite soil_depth_loop_step by assumption. apply Hrun.
    + right. exists 0%nat. simpl Nat.iter. cbv zeta.
      split; [apply Qltb_lt; assumption |].
      split; [assumption |]. split; [assumption |].
      apply soil_depth_loop_spins; assumption.
  - left. exists 0%nat, s.
    split; [apply soil_depth_loop_done; assumption |].
    split; [reflexivity | apply Qltb_ge; assumption].
Qed.

(** C3, counterexample: for a single compartment 0.3 thick and a root
    depth of 1, the loop, and with it [read_model_parameters], yields no
    result whatever the fuel. *)
Lemma shallow_column_never_finishes :
  ~ (exists fuel s',
       soil_depth_loop fuel (Zmax (example_crop 2 0 0 []))
         (fill_nan shallow_column) = Some s')
  /\ ~ (exists fuel r,
          read_model_parameters (collaborators := crop_only_helpers) fuel
            example_clock shallow_column (example_crop 2 0 0 []) tt = Some r).
Proof.
  assert (H : forall fuel,
             soil_depth_loop fuel (Zmax (example_crop 2 0 0 []))
               (fill_nan shallow_column) = None).
  { apply soil_depth_loop_spins; reflexivity. }
  split.
  - intros (fuel & s' & E). rewrite H in E. discriminate.
  - intros (fuel & r & E). unfold read_model_parameters in E.
    rewrite H in E. discriminate.
Qed.

(** ** The crop calendar *)

Lemma bind_raise {S A B : Type} (m : St S A) (k : A -> St S B) (s s' : S)
  (e : exn) :
  m s = (Raise e, s') -> bind m k s = (Raise e, s').
Proof. intros H. unfold bind. rewrite H. reflexivity. Qed.

Lemma bind_ok {S A B : Type} (m : St S A) (k : A -> St S B) (s s' : S)
  (a : A) :
  m s = (Ok a, s') -> bind m k s = k a s'.
Proof. intros H. unfold bind. rewrite H. reflexivity. Qed.

Lemma bind_gets {S A B : Type} (f : S -> A) (k : A -> St S B) (s : S) :
  bind (gets f) k s = k (f s) s.
Proof. reflexivity. Qed.

Lemma bind_modify {S B : Type} (f : S -> S) (k : unit -> St S B) (s : S) :
  bind (modify f) k s = k tt (f s).
Proof. reflexivity. Qed.

Lemma bind_ret {S A B : Type} (a : A) (k : A -> St S B) (s : S) :
  bind (ret a) k s = k a s.
Proof. reflexivity. Qed.

Lemma bind_lift_ok {S A B : Type} (a : A) (k : A -> St S B) (s : S) :
  bind (lift (Ok a)) k s = k a s.
Proof. reflexivity. Qed.

Lemma crop_calendar_mode_1 {collaborators : Collaborators}
  (weather_df : Weather) (s : State) :
  CalendarType (crop s) = 1%Z ->
  crop_calendar weather_df s = (Raise (ValueError calendar_days_mode), s).
Proof.
  intros H. unfold crop_calendar, bind, gets. rewrite H. reflexivity.
Qed.

Lemma crop_calendar_other_mode {collaborators : Collaborators}
  (weather_df : Weather) (s : State) :
  CalendarType (crop s) <> 2%Z -> snd (crop_calendar weather_df s) = s.
Proof.
  intros H. unfold crop_calendar, bind, gets.
  destruct (Z.eqb_spec (CalendarType (crop s)) 2) as [E | _]; [contradiction |].
  destruct (CalendarType (crop s) =? 1)%Z; reflexivity.
Qed.

(** C5: in calendar-days mode (Mode 1) the construction of the crop
    calendar fails with the "calendar days mode" error, whether or not
    calibration is requested and whatever soil column the soil-depth loop
    has left: everything after that loop raises it, with only the crop
    count and the CO2 series stored; so a call raises it as soon as the
    loop has ended and never returns.  Outside growing-degree-day mode
    (Mode 2) the calendar block leaves the state alone: no helper runs and
    no calibration is performed. *)
Theorem calendar_days_mode_is_refused {collaborators : Collaborators}
  (weather_df : Weather) :
  (forall (clk : ClockStruct) (soil' : Soil) (c : Crop),
     CalendarType c = 1%Z ->
     finalise weather_df (mkState clk soil' c new_ParamStruct)
     = (Raise (ValueError calendar_days_mode), calendar_entry clk soil' c))
  /\ (forall (fuel : nat) (clk : ClockStruct) (soil0 : Soil) (c : Crop),
        CalendarType c = 1%Z ->
        read_model_parameters fuel clk soil0 c weather_df
        = option_map
            (fun soil' =>
               (Raise (ValueError calendar_days_mode),
                calendar_entry clk soil' c))
            (soil_depth_loop fuel (Zmax c) (fill_nan soil0)))
  /\ (forall s : State,
        CalendarType (crop s) <> 2%Z ->
        snd (crop_calendar weather_df s) = s).
Proof.
  assert (Hfin : forall clk soil' c,
             CalendarType c = 1%Z ->
             finalise weather_df (mkState clk soil' c new_ParamStruct)
             = (Raise (ValueError calendar_days_mode),
                calendar_entry clk soil' c)).
  { intros clk soil' c Hmode. unfold finalise.
    rewrite bind_modify, !bind_gets, bind_modify.
    apply bind_raise. apply crop_calendar_mode_1. exact Hmode. }
  split; [exact Hfin |]. split.
  - intros fuel clk soil0 c Hmode. unfold read_model_parameters.
    destruct (soil_depth_loop fuel (Zmax c) (fill_nan soil0)) as [soil' |];
      [| reflexivity].
    cbn [option_map]. f_equal. apply Hfin. exact Hmode.
  - intros s. apply crop_calendar_other_mode.
Qed.

(** On a column that the soil-depth loop would never finish, too. *)
Lemma calendar_days_mode_is_refused_witness :
  finalise (collaborators := series_helpers) tt
    (mkState example_clock shallow_column (example_crop 1 1 0.2 [])
       new_ParamStruct)
  = (Raise (ValueError calendar_days_mode),
     calendar_entry (collaborators := series_helpers) example_clock
       shallow_column (example_crop 1 1 0.2 [])).
Proof.
  apply (proj1 (calendar_days_mode_is_refused (collaborators := series_helpers)
                  tt)).
  reflexivity.
Defined.

(** ** Soil-fertility-stress calibration *)

Lemma soil_fert_stress_parameters_zero (s : State) :
  Qeq_bool (sfertstress (crop s)) 0 = true ->
  soil_fert_stress_parameters s = (Raise (ValueError no_stress_value), s).
Proof.
  intros H. unfold soil_fert_stress_parameters, bind, gets, raise.
  rewrite H. reflexivity.
Qed.





(** [np.argmin] gives the first position of the least element. *)
Lemma argmin_from_spec (l pre : list Q) (best : nat) (least : Q) :
  (best < List.length pre)%nat ->
  nth best (pre ++ l) 0 = least ->
  (forall j, (j < List.length pre)%nat -> least <= nth j (pre ++ l) 0) ->
  (forall j, (j < best)%nat -> least < nth j (pre ++ l) 0) ->
  let k := argmin_from l (List.length pre) best least in
  (k < List.length (pre ++ l))%nat /\
  (forall j, (j < List.length (pre ++ l))%nat ->
             nth k (pre ++ l) 0 <= nth j (pre ++ l) 0) /\
  (forall j, (j < k)%nat -> nth k (pre ++ l) 0 < nth j (pre ++ l) 0).
Proof.
  revert pre best least.
  induction l as [| x r IH]; intros pre best least Hb Hn Hle Hlt; simpl.
  - rewrite app_nil_r in *. subst least. auto.
  - assert (Hx : nth (List.length pre) (pre ++ x :: r) 0 = x)
      by (rewrite app_nth2, Nat.sub_diag by lia; reflexivity).
    assert (Hlen : List.length (pre ++ [x]) = S (List.length pre))
      by (rewrite length_app; simpl; lia).
    assert (Happ : pre ++ x :: r = (pre ++ [x]) ++ r)
      by (rewrite <- app_assoc; reflexivity).
    rewrite Happ in *. rewrite <- Hlen.
    destruct (Qltb x least) eqn:E.
    + apply Qltb_lt in E. apply IH.
      * lia.
      * exact Hx.
      * intros j Hj. rewrite Hlen in Hj.
        destruct (Nat.eq_dec j (List.length pre)) as [-> | Hne].
        -- rewrite Hx. apply Qle_refl.
        -- apply Qle_trans with least; [apply Qlt_le_weak; exact E |].
           apply Hle. lia.
      * intros j Hj. apply Qlt_le_trans with least; [exact E |].
        apply Hle. assumption.
    + apply Qltb_ge in E. apply IH.
      * lia.
      * exact Hn.
      * intros j Hj. rewrite Hlen in Hj.
        destruct (Nat.eq_dec j (List.length pre)) as [-> | Hne].
        -- rewrite Hx. exact E.
        -- apply Hle. lia.
      * exact Hlt.
Qed.

Lemma np_argmin_spec (l : list Q) :
  l <> [] ->
  exists k,
    np_argmin l = Ok k /\ (k < List.length l)%nat /\
    (forall j, (j < List.length l)%nat -> nth k l 0 <= nth j l 0) /\
    (forall j, (j < k)%nat -> nth k l 0 < nth j l 0).
Proof.
  destruct l as [| x r]; [congruence | intros _].
  exists (argmin_from r 1 0 x). split; [reflexivity |].
  apply (argmin_from_spec r [x] 0 x).
  - simpl. lia.
  - reflexivity.
  - intros j Hj. simpl in Hj. assert (j = 0)%nat as -> by lia.
    apply Qle_refl.
  - intros j Hj. lia.
Qed.

Lemma nth_distances (stress : Q) (curve : list Q) (j : nat) :
  (j < List.length curve)%nat ->
  nth j (distances stress curve) 0 = Qabs (nth j curve 0 - stress).
Proof.
  intros Hj. unfold distances.
  rewrite (nth_indep _ 0 (Qabs (0 - stress)))
    by (rewrite length_map; assumption).
  apply (map_nth (fun x => Qabs (x - stress))).
Qed.

Lemma soil_fert_stress_parameters_run (s : State) (loc_ : nat)
  (a b c d : Q) :
  Qeq_bool (sfertstress (crop s)) 0 = false ->
  np_argmin (distances (sfertstress (crop s)) (firstn 100 (sf_es (crop s))))
  = Ok loc_ ->
  nth_error (Ksccx_es (crop s)) loc_ = Some a ->
  nth_error (Ksexpf_es (crop s)) loc_ = Some b ->
  nth_error (Kswp_es (crop s)) loc_ = Some c ->
  nth_error (fcdecline_es (crop s)) loc_ = Some d ->
  soil_fert_stress_parameters s = (Ok tt, with_crop (calibrated a b c d) s).
Proof.
  intros Hz Hloc Ha Hb Hc Hd.
  unfold soil_fert_stress_parameters, bind, gets, lift, modify, ret, index.
  rewrite Hz. fold (distances (sfertstress (crop s))
                       (firstn 100 (sf_es (crop s)))).
  rewrite Hloc, Ha, Hb, Hc, Hd.
  destruct s as [clk so cr ps]. reflexivity.
Qed.

(** C7 (as amended): for a non-zero target stress the calibrator selects,
    among the first 100 rows of the stress-response curve, the row whose
    stress fraction has the least absolute difference to the target, the
    lowest such row on ties; for a strictly increasing curve and a target
    equal to the stress fraction of row [k] it selects [k]; and it stores
    the four coefficients of that row on the crop, every other field,
    the relative-biomass column included, staying as it was. *)
Theorem calibrator_selects_closest_row (s : State) :
  let cr := crop s in
  let stress := sfertstress cr in
  let curve := firstn 100 (sf_es cr) in
  ~ stress == 0 ->
  curve <> [] ->
  exists loc_,
    np_argmin (distances stress curve) = Ok loc_ /\
    (loc_ < List.length curve)%nat /\
    (forall j, (j < List.length curve)%nat ->
       Qabs (nth loc_ curve 0 - stress) <= Qabs (nth j curve 0 - stress)) /\
    (forall j, (j < loc_)%nat ->
       Qabs (nth loc_ curve 0 - stress) < Qabs (nth j curve 0 - stress)) /\
    (forall k, (k < List.length curve)%nat -> increasing curve ->
       stress == nth k curve 0 -> loc_ = k) /\
    (forall a b c d,
       nth_error (Ksccx_es cr) loc_ = Some a ->
       nth_error (Ksexpf_es cr) loc_ = Some b ->
       nth_error (Kswp_es cr) loc_ = Some c ->
       nth_error (fcdecline_es cr) loc_ = Some d ->
       soil_fert_stress_parameters s
       = (Ok tt, with_crop (calibrated a b c d) s)).
Proof.
  intros cr stress curve Hnz Hne.
  destruct (np_argmin_spec (distances stress curve))
    as (loc_ & Hloc & Hlen & Hmin & Hfirst).
  { unfold distances. destruct curve; [congruence | discriminate]. }
  assert (Hdl : List.length (distances stress curve) = List.length curve)
    by (unfold distances; apply length_map).
  rewrite Hdl in *.
  exists loc_. split; [exact Hloc |]. split; [exact Hlen |].
  assert (Hmin' : forall j, (j < List.length curve)%nat ->
            Qabs (nth loc_ curve 0 - stress) <= Qabs (nth j curve 0 - stress)).
  { intros j Hj. rewrite <- !nth_distances by assumption. apply Hmin, Hj. }
  split; [exact Hmin' |]. split; [| split].
  - intros j Hj. rewrite <- !nth_distances by lia. apply Hfirst, Hj.
  - intros k Hk Hinc Hst.
    specialize (Hmin' k Hk).
    assert (H0 : Qabs (nth k curve 0 - stress) == 0).
    { rewrite <- Hst. setoid_replace (stress - stress) with 0 by ring.
      reflexivity. }
    rewrite H0 in Hmin'.
    apply Qabs_Qle_condition in Hmin'.
    destruct (Nat.lt_trichotomy loc_ k) as [Hlt | [E | Hgt]]; [| exact E |].
    + specialize (Hinc loc_ k ltac:(lia)). lra.
    + specialize (Hinc k loc_ ltac:(lia)). lra.
  - intros a b c d Ha Hb Hc Hd.
    apply (soil_fert_stress_parameters_run s loc_); try assumption.
    destruct (Qeq_bool (sfertstress (crop s)) 0) eqn:E; [| reflexivity].
    exfalso. apply Hnz. apply Qeq_bool_iff. exact E.
Qed.

Lemma example_curve_increasing : increasing [0; 0.1; 0.2; 0.3].
Proof.
  intros i j [Hij Hj]. simpl in Hj.
  destruct i as [| [| [| [| i]]]]; destruct j as [| [| [| [| j]]]];
    simpl; try lia; reflexivity.
Qed.

Lemma calibrator_selects_closest_row_witness :
  soil_fert_stress_parameters (example_state [0.9; 0.8; 0.7; 0.6])
  = (Ok tt,
     with_crop (calibrated 0.6 0.8 0.9 0.02)
       (example_state [0.9; 0.8; 0.7; 0.6])).
Proof.
  destruct (calibrator_selects_closest_row (example_state [0.9; 0.8; 0.7; 0.6]))
    as (loc_ & _ & _ & _ & _ & Hk & Hrun).
  - intros H. discriminate H.
  - discriminate.
  - assert (E : loc_ = 2%nat).
    { apply Hk.
      - simpl. lia.
      - exact example_curve_increasing.
      - reflexivity. }
    subst loc_. apply Hrun; reflexivity.
Defined.

(** C7, counterexample: two curves that differ only in the relative
    biomass of the selected row give the same four coefficients, and none
    of the values stored is the relative biomass of that row. *)
Lemma relative_biomass_is_not_read :
  np_argmin (distances 0.2 (firstn 100 [0; 0.1; 0.2; 0.3])) = Ok 2%nat
  /\ nth_error [0.9; 0.8; 0.7; 0.6] 2 = Some 0.7
  /\ nth_error [0.9; 0.8; 0.5; 0.6] 2 = Some 0.5
  /\ soil_fert_stress_parameters (example_state [0.9; 0.8; 0.7; 0.6])
     = (Ok tt,
        with_crop (calibrated 0.6 0.8 0.9 0.02)
          (example_state [0.9; 0.8; 0.7; 0.6]))
  /\ soil_fert_stress_parameters (example_state [0.9; 0.8; 0.5; 0.6])
     = (Ok tt,
        with_crop (calibrated 0.6 0.8 0.9 0.02)
          (example_state [0.9; 0.8; 0.5; 0.6]))
  /\ Forall (fun v => ~ v == 0.7)
       (let cr :=
          crop (snd (soil_fert_stress_parameters
                       (example_state [0.9; 0.8; 0.7; 0.6]))) in
        [Ksccx cr; Ksexpf cr; Kswp cr; fcdecline cr]).
Proof.
  repeat split; try reflexivity.
  repeat constructor; intros H; discriminate H.
Qed.

(** ** Season scheduling *)

Lemma to_datetime_ok (y : Z) (md : MonthDay) :
  valid_date y (md_month md) (md_day md) = true ->
  to_datetime y md = Ok (mkDate y (md_month md) (md_day md)).
Proof. intros H. unfold to_datetime. rewrite H. reflexivity. Qed.

Lemma date_leb_same_year (y y' m d m' d' : Z) :
  date_leb (mkDate y m d) (mkDate y m' d')
  = date_leb (mkDate y' m d) (mkDate y' m' d').
Proof.
  unfold date_leb, date_ltb, date_eqb. simpl.
  rewrite !Z.ltb_irrefl, !Z.eqb_refl. reflexivity.
Qed.

Lemma length_range (a b : Z) : List.length (range a b) = Z.to_nat (b - a).
Proof. unfold range. rewrite length_map, length_seq. reflexivity. Qed.

(** C8 (as amended): for a single-year crop the planting years are
    [start_year .. end_year] and the harvest years are the same list,
    except that the last year is dropped exactly when the end date of the
    simulation is on or before the planting date of that year. *)
Theorem single_year_season_years (s : State) :
  let sy := year (simulation_start_date (clock_struct s)) in
  let e := simulation_end_date (clock_struct s) in
  let p := planting_date (crop s) in
  let h := harvest_date (crop s) in
  valid_date 1990 (md_month p) (md_day p) = true ->
  valid_date 1990 (md_month h) (md_day h) = true ->
  valid_date 1990 (month e) (day e) = true ->
  date_ltb (mkDate 1990 (md_month p) (md_day p))
    (mkDate 1990 (md_month h) (md_day h)) = true ->
  let last_planting := mkDate (year e) (md_month p) (md_day p) in
  let plant_years :=
    if date_leb e last_planting
    then range sy (year e)
    else range sy (year e + 1) in
  season_years s = (Ok (plant_years, plant_years), s).
Proof.
  intros sy e p h Hp Hh He Hsingle last_planting plant_years.
  unfold season_years. rewrite !bind_gets. cbv beta.
  fold e. fold p. fold h. fold sy.
  rewrite (to_datetime_ok 1990 p Hp), bind_lift_ok.
  rewrite (to_datetime_ok 1990 h Hh), bind_lift_ok.
  rewrite Hsingle.
  rewrite (to_datetime_ok 1990 (mkMonthDay (month e) (day e)) He), bind_lift_ok.
  rewrite bind_lift_ok.
  simpl md_month. simpl md_day.
  assert (Hleb : date_leb (mkDate 1990 (month e) (day e))
                   (mkDate 1990 (md_month p) (md_day p))
                 = date_leb e last_planting).
  { unfold last_planting. destruct e as [ye me de]. simpl.
    apply date_leb_same_year. }
  rewrite Hleb. unfold plant_years, ret.
  destruct (date_leb e last_planting).
  - replace (year e - 1 + 1)%Z with (year e) by lia. reflexivity.
  - reflexivity.
Qed.

Lemma single_year_season_years_witness :
  season_years (state_ending (mkDate 2002 12 31))
  = (Ok ([2000; 2001; 2002]%Z, [2000; 2001; 2002]%Z),
     state_ending (mkDate 2002 12 31)).
Proof.
  apply (single_year_season_years (state_ending (mkDate 2002 12 31)));
    reflexivity.
Defined.

(** C8, counterexample: a simulation that ends on the planting day of
    2002 does not end before it, and yet 2002 is dropped. *)
Lemma last_year_dropped_on_planting_day :
  date_ltb (simulation_end_date (clock_struct (state_ending (mkDate 2002 5 1))))
    (mkDate 2002 5 1) = false
  /\ season_years (state_ending (mkDate 2002 5 1))
     = (Ok ([2000; 2001]%Z, [2000; 2001]%Z), state_ending (mkDate 2002 5 1))
  /\ [2000; 2001]%Z <> range 2000 (2002 + 1).
Proof. repeat split; try reflexivity. discriminate. Qed.

Lemma season_years_unchanged (s : State) : snd (season_years s) = s.
Proof.
  unfold season_years. rewrite !bind_gets. cbv beta.
  unfold bind, lift, ret.
  repeat match goal with
         | |- context [to_datetime ?y ?md] => destruct (to_datetime y md)
         | |- context [if ?b then _ else _] => destruct b
         end; reflexivity.
Qed.

Lemma season_years_lengths (s s' : State) (py hy : list Z) :
  season_years s = (Ok (py, hy), s') -> List.length py = List.length hy.
Proof.
  unfold season_years. rewrite !bind_gets. cbv beta.
  unfold bind, lift, ret.
  repeat match goal with
         | |- context [to_datetime ?y ?md] => destruct (to_datetime y md)
         | |- context [if ?b then _ else _] => destruct b
         end;
    intros E; try discriminate; injection E as <- <- _;
    rewrite ?length_range; lia.
Qed.

Lemma mapM_ok {S A B : Type} (f : A -> St S B) (g : A -> B) (l : list A)
  (s : S) :
  (forall x, In x l -> f x s = (Ok (g x), s)) ->
  mapM f l s = (Ok (map g l), s).
Proof.
  induction l as [| x r IH]; intros H; simpl.
  - reflexivity.
  - unfold bind. rewrite (H x (or_introl eq_refl)).
    rewrite IH by (intros y Hy; apply H; right; exact Hy).
    reflexivity.
Qed.

Lemma index_nth {A : Type} (l : list A) (i : nat) (d : A) :
  (i < List.length l)%nat -> index l i = Ok (nth i l d).
Proof.
  intros H. unfold index.
  rewrite (nth_error_nth' l d H). reflexivity.
Qed.

Lemma map_nth_seq {A : Type} (l : list A) (d : A) :
  map (fun i => nth i l d) (seq 0 (List.length l)) = l.
Proof.
  induction l as [| x r IH]; simpl; [reflexivity |].
  f_equal. rewrite <- seq_shift, map_map. exact IH.
Qed.

Lemma seasons_run (s : State) (py hy : list Z) :
  py <> [] ->
  List.length py = List.length hy ->
  Forall (fun y => valid_date y (md_month (planting_date (crop s)))
                     (md_day (planting_date (crop s))) = true) py ->
  Forall (fun y => valid_date y (md_month (harvest_date (crop s)))
                     (md_day (harvest_date (crop s))) = true) hy ->
  seasons (py, hy) s
  = (Ok tt,
     mkState
       (scheduled (map (date_of (planting_date (crop s))) py)
          (map (date_of (harvest_date (crop s))) hy) (clock_struct s))
       (soil s) (crop s)
       (set_CropChoices (map (fun _ => Name (crop s)) py) (param_struct s))).
Proof.
  intros Hne Hlen Hvp Hvh. unfold seasons. cbn [fst snd].
  rewrite Hlen, Nat.eqb_refl. rewrite bind_ret.
  rewrite (bind_ok _ _ s s
             (map (fun i => ((nth i py 0%Z, planting_date (crop s)),
                             (nth i hy 0%Z, harvest_date (crop s)),
                             Name (crop s)))
                (seq 0 (List.length hy)))).
  2:{ apply mapM_ok. intros i Hi. apply in_seq in Hi.
      unfold bind, gets, lift, ret.
      rewrite (index_nth py i 0%Z) by lia.
      rewrite (index_nth hy i 0%Z) by lia. reflexivity. }
  rewrite !map_map. cbn [fst snd].
  rewrite bind_modify.
  assert (Hp : map (fun i => (nth i py 0%Z, planting_date (crop s)))
                 (seq 0 (List.length hy))
               = map (fun y => (y, planting_date (crop s))) py).
  { rewrite <- Hlen.
    transitivity (map (fun y => (y, planting_date (crop s)))
                    (map (fun i => nth i py 0%Z) (seq 0 (List.length py))));
      [rewrite map_map; reflexivity | rewrite map_nth_seq; reflexivity]. }
  assert (Hh : map (fun i => (nth i hy 0%Z, harvest_date (crop s)))
                 (seq 0 (List.length hy))
               = map (fun y => (y, harvest_date (crop s))) hy).
  { transitivity (map (fun y => (y, harvest_date (crop s)))
                    (map (fun i => nth i hy 0%Z) (seq 0 (List.length hy))));
      [rewrite map_map; reflexivity | rewrite map_nth_seq; reflexivity]. }
  assert (Hn : map (fun i : nat => Name (crop s)) (seq 0 (List.length hy))
               = map (fun _ : Z => Name (crop s)) py).
  { rewrite <- Hlen. clear. induction py as [| y r IH]; simpl;
      [reflexivity |]. f_equal. rewrite <- seq_shift, map_map. exact IH. }
  rewrite Hp, Hh, Hn.
  set (s1 := with_param _ s).
  rewrite (bind_ok _ _ s1 s1 (map (date_of (planting_date (crop s))) py)).
  2:{ rewrite <- (map_map (fun y => (y, planting_date (crop s)))
                   (fun ym => date_of (snd ym) (fst ym))).
      apply mapM_ok. intros ym Hin. apply in_map_iff in Hin.
      destruct Hin as (y & <- & Hy). unfold lift. cbn [fst snd].
      rewrite Forall_forall in Hvp.
      rewrite (to_datetime_ok y _ (Hvp y Hy)). reflexivity. }
  rewrite bind_modify.
  set (s2 := with_clock _ s1).
  rewrite (bind_ok _ _ s2 s2 (map (date_of (harvest_date (crop s))) hy)).
  2:{ rewrite <- (map_map (fun y => (y, harvest_date (crop s)))
                   (fun ym => date_of (snd ym) (fst ym))).
      apply mapM_ok. intros ym Hin. apply in_map_iff in Hin.
      destruct Hin as (y & <- & Hy). unfold lift. cbn [fst snd].
      rewrite Forall_forall in Hvh.
      rewrite (to_datetime_ok y _ (Hvh y Hy)). reflexivity. }
  rewrite !bind_modify, !bind_gets. cbv beta.
  destruct py as [| y0 rest]; [congruence |].
  destruct s as [clk so cr ps]. destruct clk. simpl.
  unfold bind, lift, index, modify, scheduled. simpl.
  rewrite !length_map.
  destruct (date_eqb _ _); reflexivity.
Qed.

Lemma first_season_correction_drops (s : State) (py hy : list Z) (y0 : Z)
  (rest : list Z) :
  py = y0 :: rest ->
  valid_date y0 (md_month (planting_date (crop s)))
    (md_day (planting_date (crop s))) = true ->
  date_ltb (date_of (planting_date (crop s)) y0)
    (simulation_start_date (clock_struct s)) = true ->
  first_season_correction (py, hy) s = (Ok (rest, tl hy), s).
Proof.
  intros -> Hv Hlt. unfold first_season_correction. cbn [fst snd].
  unfold index. cbn [nth_error]. rewrite bind_lift_ok, bind_gets. cbv beta.
  rewrite (to_datetime_ok y0 _ Hv), bind_lift_ok, bind_gets. cbv beta.
  unfold date_of in Hlt. rewrite Hlt. reflexivity.
Qed.

(** C9: when the first planting date, [plant_years[0]] with the planting
    day and month of the crop, precedes the start of the simulation, the
    first element of both year lists is dropped and the lists keep equal
    lengths; where a second year exists the seasons are stored and the
    first planting date is that of the second year. *)
Theorem partial_first_season_is_dropped (s : State) (py hy : list Z) (y0 : Z)
  (later : list Z) :
  let p := planting_date (crop s) in
  let h := harvest_date (crop s) in
  season_years s = (Ok (py, hy), s) ->
  py = y0 :: later ->
  valid_date y0 (md_month p) (md_day p) = true ->
  date_ltb (date_of p y0) (simulation_start_date (clock_struct s)) = true ->
  first_season_correction (py, hy) s = (Ok (later, tl hy), s) /\
  List.length later = List.length (tl hy) /\
  (forall y1 rest,
     later = y1 :: rest ->
     Forall (fun y => valid_date y (md_month p) (md_day p) = true) later ->
     Forall (fun y => valid_date y (md_month h) (md_day h) = true) (tl hy) ->
     exists s',
       (years <- first_season_correction (py, hy) ;; seasons years) s
       = (Ok tt, s') /\
       planting_dates (clock_struct s') = map (date_of p) later /\
       hd_error (planting_dates (clock_struct s')) = Some (date_of p y1) /\
       harvest_dates (clock_struct s') = map (date_of h) (tl hy) /\
       List.length (planting_dates (clock_struct s'))
       = List.length (harvest_dates (clock_struct s')) /\
       n_seasons (clock_struct s') = Z.of_nat (List.length later)).
Proof.
  intros p h Hyears Hpy Hv Hlt.
  pose proof (season_years_lengths s s py hy Hyears) as Hlen.
  pose proof (first_season_correction_drops s py hy y0 later Hpy Hv Hlt)
    as Hdrop.
  assert (Hlen' : List.length later = List.length (tl hy)).
  { subst py. destruct hy as [| h0 hr]; simpl in *; [discriminate | lia]. }
  split; [exact Hdrop |]. split; [exact Hlen' |].
  intros y1 rest Hlater Hvp Hvh.
  eexists. split.
  - rewrite (bind_ok _ _ _ _ _ Hdrop).
    apply seasons_run; try assumption.
    rewrite Hlater. discriminate.
  - cbn [clock_struct scheduled planting_dates harvest_dates n_seasons].
    fold p. fold h.
    split; [reflexivity |].
    split; [rewrite Hlater; reflexivity |].
    split; [reflexivity |].
    split; [rewrite !length_map; exact Hlen' |].
    rewrite length_map. reflexivity.
Qed.

Lemma partial_first_season_is_dropped_witness :
  first_season_correction
    ([2000; 2001; 2002]%Z, [2000; 2001; 2002]%Z) late_start_state
  = (Ok ([2001; 2002]%Z, [2001; 2002]%Z), late_start_state)
  /\ exists s',
       (years <- first_season_correction
                   ([2000; 2001; 2002]%Z, [2000; 2001; 2002]%Z) ;;
        seasons years) late_start_state = (Ok tt, s') /\
       hd_error (planting_dates (clock_struct s')) = Some (mkDate 2001 5 1).
Proof.
  destruct (partial_first_season_is_dropped late_start_state
              [2000; 2001; 2002]%Z [2000; 2001; 2002]%Z 2000%Z
              [2001; 2002]%Z)
    as (Hdrop & _ & Hseq).
  - reflexivity.
  - reflexivity.
  - reflexivity.
  - reflexivity.
  - split; [exact Hdrop |].
    destruct (Hseq 2001%Z [2002]%Z) as (s' & Hrun & _ & Hhd & _).
    + reflexivity.
    + repeat constructor.
    + repeat constructor.
    + exists s'. split; [exact Hrun | exact Hhd].
Defined.

(** ** Further properties of the set-up *)

(** *** The soil-depth loop only thickens *)

Lemma thickened_refl (l : list Q) : Forall2 thickened l l.
Proof.
  induction l as [| d r IH]; constructor; [| exact IH].
  destruct (Qltb d 0.25) eqn:E.
  - apply Qltb_lt in E. right. split; [exact E |]. split; lra.
  - apply Qltb_ge in E. left. split; [exact E | reflexivity].
Qed.

Lemma thickened_step (l1 l2 l3 : list Q) :
  Forall2 thickened l1 l2 -> Forall2 thickened_once l2 l3 ->
  Forall2 thickened l1 l3.
Proof.
  intros H12. revert l3. induction H12 as [| a b r1 r2 Hab _ IH];
    intros l3 H23; inversion H23 as [| b' c r2' r3 Hbc Hr]; subst;
    constructor; [| apply IH; assumption].
  destruct Hbc as [-> | [Hlt ->]]; [exact Hab |].
  destruct Hab as [[Hge ->] | (Ha & Hle & Hlt')]; [lra |].
  right. split; [exact Ha |]. split; lra.
Qed.

Lemma thickened_once_refl (l : list Q) : Forall2 thickened_once l l.
Proof. induction l; constructor; [left; reflexivity | assumption]. Qed.

Lemma thickened_once_list_set (l : list Q) (i : nat) :
  (i < List.length l)%nat -> nth i l 0 < 0.25 ->
  Forall2 thickened_once l (list_set i (nth i l 0 + 0.1) l).
Proof.
  revert i. induction l as [| x r IH]; intros [| j] Hi Hlt; simpl in *;
    try lia.
  - constructor; [| apply thickened_once_refl].
    right. split; [exact Hlt | reflexivity].
  - constructor; [left; reflexivity |]. apply IH; [lia | exact Hlt].
Qed.

Lemma pass_thickens_once (s : Soil) :
  Forall2 thickened_once (dz s) (dz (pass s)).
Proof.
  destruct (pass_cases s) as [(i & Hlen & Hi & Heq) | (_ & Heq)];
    rewrite Heq.
  - cbn [fill_nan add_dz dz]. apply thickened_once_list_set; [exact Hlen |].
    apply Qltb_lt. exact Hi.
  - apply thickened_once_refl.
Qed.

Lemma soil_depth_loop_thickens (fuel : nat) (zmax : Q) :
  forall s0 s s',
    Forall2 thickened (dz s0) (dz s) ->
    soil_depth_loop fuel zmax s = Some s' ->
    Forall2 thickened (dz s0) (dz s').
Proof.
  induction fuel as [| f IH]; intros s0 s s' H0 Hrun; simpl in Hrun;
    destruct (Qltb (zSoil s) (zmax + 0.1)); try discriminate;
    try (injection Hrun as <-; exact H0).
  apply (IH s0 (pass s)); [| exact Hrun].
  eapply thickened_step; [exact H0 | apply pass_thickens_once].
Qed.

(** X9: when the soil-depth loop ends, the column has as many compartments
    as before; a compartment that was 0.25 thick or more is as it was, and
    a thinner one is no thinner than before and still below 0.35. *)
Theorem soil_depth_loop_only_thickens (fuel : nat) (zmax : Q) (s s' : Soil) :
  soil_depth_loop fuel zmax s = Some s' ->
  List.length (dz s') = List.length (dz s) /\
  Forall2 thickened (dz s) (dz s').
Proof.
  intros Hrun.
  assert (H : Forall2 thickened (dz s) (dz s'))
    by (apply (soil_depth_loop_thickens fuel zmax s s s');
        [apply thickened_refl | exact Hrun]).
  split; [symmetry; eapply Forall2_length; exact H | exact H].
Qed.

Lemma soil_depth_loop_only_thickens_witness :
  List.length (dz example_grown_soil) = List.length (dz (fill_nan example_soil))
  /\ Forall2 thickened (dz (fill_nan example_soil)) (dz example_grown_soil).
Proof.
  apply (soil_depth_loop_only_thickens 10 1 (fill_nan example_soil)
           example_grown_soil).
  reflexivity.
Defined.

(** *** The deepest thin compartment is thickened first *)

Lemma thicken_first_from_bottom (s : Soil) (k : nat) :
  (exists i, (i < k)%nat /\ Qltb (nth i (dz s) 0) 0.25 = true /\
             (forall j, (i < j < k)%nat -> Qltb (nth j (dz s) 0) 0.25 = false) /\
             thicken_first (rev (seq 0 k)) s = fill_nan (add_dz i s))
  \/ ((forall j, (j < k)%nat -> Qltb (nth j (dz s) 0) 0.25 = false) /\
      thicken_first (rev (seq 0 k)) s = s).
Proof.
  induction k as [| k IH].
  - right. split; [intros j Hj; lia | reflexivity].
  - rewrite seq_S, rev_app_distr. cbn [rev app Nat.add thicken_first].
    destruct (Qltb (nth k (dz s) 0) 0.25) eqn:E.
    + left. exists k. split; [lia |]. split; [exact E |].
      split; [intros j Hj; lia | reflexivity].
    + destruct IH as [(i & Hi & Hlt & Hbelow & Heq) | (Hall & Heq)].
      * left. exists i. split; [lia |]. split; [exact Hlt |].
        split; [| exact Heq].
        intros j Hj. destruct (Nat.eq_dec j k) as [-> | Hne];
          [exact E | apply Hbelow; lia].
      * right. split; [| exact Heq].
        intros j Hj. destruct (Nat.eq_dec j k) as [-> | Hne];
          [exact E | apply Hall; lia].
Qed.

(** X11: a pass of the [for] loop thickens the deepest compartment thinner
    than 0.25, by 0.1, and no other; when there is none it changes
    nothing. *)
Theorem pass_thickens_the_deepest_thin_compartment (s : Soil) :
  (exists i,
     (i < List.length (dz s))%nat /\ nth i (dz s) 0 < 0.25 /\
     (forall j, (i < j < List.length (dz s))%nat -> 0.25 <= nth j (dz s) 0) /\
     dz (thicken_first (reversed_index s) s)
     = list_set i (nth i (dz s) 0 + 0.1) (dz s))
  \/ ((forall j, (j < List.length (dz s))%nat -> 0.25 <= nth j (dz s) 0) /\
      thicken_first (reversed_index s) s = s).
Proof.
  unfold reversed_index.
  destruct (thicken_first_from_bottom s (List.length (dz s)))
    as [(i & Hi & Hlt & Hbelow & Heq) | (Hall & Heq)].
  - left. exists i. split; [exact Hi |].
    split; [apply Qltb_lt; exact Hlt |].
    split; [intros j Hj; apply Qltb_ge; apply Hbelow; exact Hj |].
    rewrite Heq. reflexivity.
  - right. split; [| exact Heq].
    intros j Hj. apply Qltb_ge. apply Hall. exact Hj.
Qed.

(** *** The calibrator is all or nothing *)

Lemma soil_fert_stress_parameters_cases (s : State) :
  (exists loc_ a b c d,
     Qeq_bool (sfertstress (crop s)) 0 = false /\
     np_argmin (distances (sfertstress (crop s))
                  (firstn 100 (sf_es (crop s)))) = Ok loc_ /\
     nth_error (Ksccx_es (crop s)) loc_ = Some a /\
     nth_error (Ksexpf_es (crop s)) loc_ = Some b /\
     nth_error (Kswp_es (crop s)) loc_ = Some c /\
     nth_error (fcdecline_es (crop s)) loc_ = Some d /\
     soil_fert_stress_parameters s
     = (Ok tt, with_crop (calibrated a b c d) s))
  \/ (exists e,
        soil_fert_stress_parameters s = (Raise e, s) /\
        (e = ValueError no_stress_value
         \/ e = ValueError "attempt to get argmin of an empty sequence"%string
         \/ e = IndexError)).
Proof.
  destruct (Qeq_bool (sfertstress (crop s)) 0) eqn:Hz.
  { right. eexists. split;
      [apply soil_fert_stress_parameters_zero; exact Hz | auto]. }
  destruct (np_argmin (distances (sfertstress (crop s))
                         (firstn 100 (sf_es (crop s))))) as [loc_ | e] eqn:Hloc.
  2:{ right. exists e. split.
      - unfold soil_fert_stress_parameters, bind, gets, lift, ret.
        rewrite Hz. fold (distances (sfertstress (crop s))
                            (firstn 100 (sf_es (crop s)))).
        rewrite Hloc. reflexivity.
      - unfold np_argmin in Hloc.
        destruct (distances _ _); [| discriminate].
        injection Hloc as <-. auto. }
  assert (Hraise : forall l : list Q,
             nth_error l loc_ = None -> index l loc_ = Raise IndexError).
  { intros l H. unfold index. rewrite H. reflexivity. }
  assert (Hok : forall (l : list Q) v,
             nth_error l loc_ = Some v -> index l loc_ = Ok v).
  { intros l v H. unfold index. rewrite H. reflexivity. }
  destruct (nth_error (Ksccx_es (crop s)) loc_) as [a |] eqn:Ha;
    [destruct (nth_error (Ksexpf_es (crop s)) loc_) as [b |] eqn:Hb;
     [destruct (nth_error (Kswp_es (crop s)) loc_) as [c |] eqn:Hc;
      [destruct (nth_error (fcdecline_es (crop s)) loc_) as [d |] eqn:Hd
      |] |] |].
  - left. exists loc_, a, b, c, d. repeat split; try assumption.
    apply (soil_fert_stress_parameters_run s loc_); assumption.
  - right. exists IndexError. split; [| auto].
    unfold soil_fert_stress_parameters, bind, gets, lift, ret.
    rewrite Hz. fold (distances (sfertstress (crop s))
                        (firstn 100 (sf_es (crop s)))).
    rewrite Hloc, (Hok _ _ Ha), (Hok _ _ Hb), (Hok _ _ Hc), (Hraise _ Hd).
    reflexivity.
  - right. exists IndexError. split; [| auto].
    unfold soil_fert_stress_parameters, bind, gets, lift, ret.
    rewrite Hz. fold (distances (sfertstress (crop s))
                        (firstn 100 (sf_es (crop s)))).
    rewrite Hloc, (Hok _ _ Ha), (Hok _ _ Hb), (Hraise _ Hc).
    reflexivity.
  - right. exists IndexError. split; [| auto].
    unfold soil_fert_stress_parameters, bind, gets, lift, ret.
    rewrite Hz. fold (distances (sfertstress (crop s))
                        (firstn 100 (sf_es (crop s)))).
    rewrite Hloc, (Hok _ _ Ha), (Hraise _ Hb).
    reflexivity.
  - right. exists IndexError. split; [| auto].
    unfold soil_fert_stress_parameters, bind, gets, lift, ret.
    rewrite Hz. fold (distances (sfertstress (crop s))
                        (firstn 100 (sf_es (crop s)))).
    rewrite Hloc, (Hraise _ Ha).
    reflexivity.
Qed.

(** X12: the calibration of lines 161 to 202 is all or nothing.  When it
    raises, for a zero target stress, an empty curve or a coefficient
    column shorter than the selected row, no field of the crop has been
    written and the whole state is as before. *)
Theorem calibrator_raises_without_writing (s s' : State) (e : exn) :
  soil_fert_stress_parameters s = (Raise e, s') ->
  s' = s /\
  (e = ValueError no_stress_value
   \/ e = ValueError "attempt to get argmin of an empty sequence"%string
   \/ e = IndexError).
Proof.
  intros H.
  destruct (soil_fert_stress_parameters_cases s)
    as [(loc_ & a & b & c & d & _ & _ & _ & _ & _ & _ & E) | (e' & E & He)];
    rewrite E in H.
  - discriminate.
  - injection H as <- <-. split; [reflexivity | exact He].
Qed.

Lemma calibrator_raises_without_writing_witness :
  let s := mkState example_clock example_grown_soil
             (mkCrop "Maize" 1 2 1 0.2 100 (mkMonthDay 5 1) (mkMonthDay 9 1)
                [0; 0.1; 0.2; 0.3] [1; 0.9; 0.8; 0.7] [0; 0.01]
                [1; 0.95; 0.9; 0.85] [1; 0.8; 0.6; 0.4] [] 0 0 0 0)
             new_ParamStruct in
  soil_fert_stress_parameters s = (Raise IndexError, s) /\
  s = s /\
  (IndexError = ValueError no_stress_value
   \/ IndexError
      = ValueError "attempt to get argmin of an empty sequence"%string
   \/ IndexError = IndexError).
Proof.
  intros s. split; [reflexivity |].
  apply (calibrator_raises_without_writing s s IndexError).
  reflexivity.
Defined.

Lemma calibrated_twice (a b c d : Q) (cr : Crop) :
  calibrated a b c d (calibrated a b c d cr) = calibrated a b c d cr.
Proof. reflexivity. Qed.

(** X13: calibrating a second time changes nothing: the curve and the
    target stress are untouched by the first run, so the same row is
    selected and the same four coefficients are stored. *)
Theorem calibrator_is_idempotent (s s1 : State) :
  soil_fert_stress_parameters s = (Ok tt, s1) ->
  soil_fert_stress_parameters s1 = (Ok tt, s1).
Proof.
  intros H.
  destruct (soil_fert_stress_parameters_cases s)
    as [(loc_ & a & b & c & d & Hz & Hloc & Ha & Hb & Hc & Hd & E)
       | (e' & E & _)];
    rewrite E in H; [| discriminate].
  injection H as <-.
  rewrite (soil_fert_stress_parameters_run
             (with_crop (calibrated a b c d) s) loc_ a b c d);
    try assumption.
  destruct s as [clk so cr ps]. reflexivity.
Qed.

Lemma calibrator_is_idempotent_witness :
  soil_fert_stress_parameters
    (with_crop (calibrated 0.6 0.8 0.9 0.02)
       (example_state [0.9; 0.8; 0.7; 0.6]))
  = (Ok tt,
     with_crop (calibrated 0.6 0.8 0.9 0.02)
       (example_state [0.9; 0.8; 0.7; 0.6])).
Proof.
  apply (calibrator_is_idempotent (example_state [0.9; 0.8; 0.7; 0.6])).
  reflexivity.
Defined.

(** *** Seasons that run over the end of the year *)

Lemma valid_in_1990_valid_in_any_year (y m d : Z) :
  valid_date 1990 m d = true -> valid_date y m d = true.
Proof.
  unfold valid_date. rewrite !andb_true_iff, !Z.leb_le.
  intros [[[H1 H2] H3] H4]. repeat split; try assumption.
  revert H4. unfold days_in_month.
  destruct (m =? 2)%Z; [| tauto].
  change (is_leap 1990) with false. cbv iota.
  destruct (is_leap y); lia.
Qed.

Lemma date_ltb_next_year (y m d m' d' : Z) :
  date_ltb (mkDate y m d) (mkDate (y + 1) m' d') = true.
Proof.
  unfold date_ltb. cbn [year month day].
  assert (H : (y <? y + 1)%Z = true) by (apply Z.ltb_lt; lia).
  rewrite H. reflexivity.
Qed.

Lemma date_ltb_two_years_on (e : Date) (m d : Z) :
  date_ltb (mkDate (year e + 2) m d) e = false.
Proof.
  unfold date_ltb. cbn [year month day].
  assert (H1 : (year e + 2 <? year e)%Z = false) by (apply Z.ltb_ge; lia).
  assert (H2 : (year e + 2 =? year e)%Z = false) by (apply Z.eqb_neq; lia).
  rewrite H1, H2. reflexivity.
Qed.

Lemma range_succ (a b : Z) : range (a + 1) (b + 1) = map Z.succ (range a b).
Proof.
  unfold range. rewrite map_map.
  replace (b + 1 - (a + 1))%Z with (b - a)%Z by lia.
  apply map_ext. intros i. lia.
Qed.

(** X14: for a crop whose season runs over the end of the year, the
    planting years are [start_year .. end_year - 1] and every harvest year
    is the planting year plus one.  The wider window of line 276 is never
    taken: a date two years past the last simulated year cannot precede the
    end of the simulation. *)
Theorem cross_year_season_years (s : State) :
  let sy := year (simulation_start_date (clock_struct s)) in
  let ey := year (simulation_end_date (clock_struct s)) in
  let p := planting_date (crop s) in
  let h := harvest_date (crop s) in
  valid_date 1990 (md_month p) (md_day p) = true ->
  valid_date 1990 (md_month h) (md_day h) = true ->
  date_ltb (mkDate 1990 (md_month p) (md_day p))
    (mkDate 1990 (md_month h) (md_day h)) = false ->
  season_years s = (Ok (range sy ey, map Z.succ (range sy ey)), s).
Proof.
  intros sy ey p h Hp Hh Hcross.
  unfold season_years. rewrite !bind_gets. cbv beta.
  fold p. fold h. fold sy. fold ey.
  rewrite (to_datetime_ok 1990 p Hp), bind_lift_ok.
  rewrite (to_datetime_ok 1990 h Hh), bind_lift_ok.
  rewrite Hcross.
  rewrite (to_datetime_ok (ey + 2) h
             (valid_in_1990_valid_in_any_year _ _ _ Hh)), bind_lift_ok.
  unfold ey at 1. rewrite date_ltb_two_years_on.
  rewrite range_succ. reflexivity.
Qed.

(** A crop planted on 1 November and harvested on 1 April. *)
Lemma cross_year_season_years_witness :
  let s := mkState example_clock example_grown_soil
             (mkCrop "Wheat" 1 2 0 0 100 (mkMonthDay 11 1) (mkMonthDay 4 1)
                [] [] [] [] [] [] 0 0 0 0)
             new_ParamStruct in
  season_years s
  = (Ok ([2000; 2001]%Z, map Z.succ [2000; 2001]%Z), s).
Proof.
  intros s. apply (cross_year_season_years s); reflexivity.
Defined.

(** *** What a call that returns has stored *)

Lemma bind_inv_St {S A B : Type} (m : St S A) (k : A -> St S B) (s s' : S)
  (b : B) :
  bind m k s = (Ok b, s') ->
  exists a s1, m s = (Ok a, s1) /\ k a s1 = (Ok b, s').
Proof.
  unfold bind. destruct (m s) as [[a | e] s1]; intros H; [| discriminate].
  exists a, s1. split; [reflexivity | exact H].
Qed.

Lemma to_datetime_inv (y : Z) (md : MonthDay) (d : Date) :
  to_datetime y md = Ok d ->
  valid_date y (md_month md) (md_day md) = true /\ d = date_of md y.
Proof.
  unfold to_datetime.
  destruct (valid_date y (md_month md) (md_day md)); intros H;
    [| discriminate].
  injection H as <-. split; reflexivity.
Qed.

Lemma lift_inv {S A : Type} (r : result A) (s s' : S) (a : A) :
  lift r s = (Ok a, s') -> r = Ok a /\ s' = s.
Proof. unfold lift. intros H. injection H as -> ->. split; reflexivity. Qed.

Lemma date_ltb_same_year (y y' m d m' d' : Z) :
  date_ltb (mkDate y m d) (mkDate y m' d')
  = date_ltb (mkDate y' m d) (mkDate y' m' d').
Proof.
  unfold date_ltb. cbn [year month day].
  rewrite !Z.ltb_irrefl, !Z.eqb_refl. reflexivity.
Qed.

Lemma mapM_lift_inv {S A B : Type} (g : A -> result B) (l : list A)
  (s s' : S) (ys : list B) :
  mapM (fun x => lift (g x)) l s = (Ok ys, s') ->
  s' = s /\ Forall2 (fun x y => g x = Ok y) l ys.
Proof.
  revert ys. induction l as [| x r IH]; intros ys H; simpl in H.
  - injection H as <- <-. split; [reflexivity | constructor].
  - apply bind_inv_St in H. destruct H as (y & s1 & E1 & H).
    apply lift_inv in E1. destruct E1 as [E1 ->].
    apply bind_inv_St in H. destruct H as (ys' & s1 & E2 & H).
    unfold ret in H. injection H as <- ->.
    destruct (IH _ E2) as [-> Hall].
    split; [reflexivity |]. constructor; assumption.
Qed.

(** The seasons block once the lengths are known to agree. *)
Lemma seasons_after_assert (s : State) (py hy : list Z) :
  List.length py = List.length hy ->
  seasons (py, hy) s
  = (modify (with_param
               (set_CropChoices (map (fun _ => Name (crop s)) py))) ;;;
     pds <- mapM (fun ym => lift (to_datetime (fst ym) (snd ym)))
              (map (fun y => (y, planting_date (crop s))) py) ;;
     modify (with_clock (set_planting_dates pds)) ;;;
     hds <- mapM (fun ym => lift (to_datetime (fst ym) (snd ym)))
              (map (fun y => (y, harvest_date (crop s))) hy) ;;
     modify (with_clock (set_harvest_dates hds)) ;;;
     modify (with_clock (set_n_seasons (Z.of_nat (List.length py)))) ;;;
     step <- gets (fun s => step_start_time (clock_struct s)) ;;
     pds' <- gets (fun s => planting_dates (clock_struct s)) ;;
     first <- lift (index pds' 0) ;;
     if date_eqb step first
     then modify (with_clock (set_season_counter 0))
     else modify (with_clock (set_season_counter (-1)))) s.
Proof.
  intros Hlen. unfold seasons. cbn [fst snd].
  rewrite Hlen, Nat.eqb_refl. rewrite bind_ret.
  rewrite (bind_ok _ _ s s
             (map (fun i => ((nth i py 0%Z, planting_date (crop s)),
                             (nth i hy 0%Z, harvest_date (crop s)),
                             Name (crop s)))
                (seq 0 (List.length hy)))).
  2:{ apply mapM_ok. intros i Hi. apply in_seq in Hi.
      unfold bind, gets, lift, ret.
      rewrite (index_nth py i 0%Z) by lia.
      rewrite (index_nth hy i 0%Z) by lia. reflexivity. }
  rewrite !map_map. cbn [fst snd]. rewrite length_map.
  assert (Hp : map (fun i => (nth i py 0%Z, planting_date (crop s)))
                 (seq 0 (List.length hy))
               = map (fun y => (y, planting_date (crop s))) py).
  { rewrite <- Hlen.
    transitivity (map (fun y => (y, planting_date (crop s)))
                    (map (fun i => nth i py 0%Z) (seq 0 (List.length py))));
      [rewrite map_map; reflexivity | rewrite map_nth_seq; reflexivity]. }
  assert (Hh : map (fun i => (nth i hy 0%Z, harvest_date (crop s)))
                 (seq 0 (List.length hy))
               = map (fun y => (y, harvest_date (crop s))) hy).
  { transitivity (map (fun y => (y, harvest_date (crop s)))
                    (map (fun i => nth i hy 0%Z) (seq 0 (List.length hy))));
      [rewrite map_map; reflexivity | rewrite map_nth_seq; reflexivity]. }
  assert (Hn : map (fun i : nat => Name (crop s)) (seq 0 (List.length hy))
               = map (fun _ : Z => Name (crop s)) py).
  { rewrite <- Hlen. clear. induction py as [| y r IH]; simpl;
      [reflexivity |]. f_equal. rewrite <- seq_shift, map_map. exact IH. }
  rewrite Hp, Hh, Hn, length_seq, <- Hlen. reflexivity.
Qed.

Lemma valid_of_parsed (md : MonthDay) (ys : list Z) (ds : list Date) :
  Forall2 (fun (x : Z * MonthDay) d => to_datetime (fst x) (snd x) = Ok d)
    (map (fun y => (y, md)) ys) ds ->
  Forall (fun y => valid_date y (md_month md) (md_day md) = true) ys.
Proof.
  revert ds. induction ys as [| y r IH]; intros ds H; [constructor |].
  inversion H as [| x d l l' Hx Hr]; subst. cbn [fst snd] in Hx.
  apply to_datetime_inv in Hx. constructor; [apply Hx | eapply IH; exact Hr].
Qed.

(** What [seasons] has stored when it returns. *)
Lemma seasons_inv (s s' : State) (py hy : list Z) :
  seasons (py, hy) s = (Ok tt, s') ->
  py <> [] /\ List.length py = List.length hy /\
  s' = mkState
         (scheduled (map (date_of (planting_date (crop s))) py)
            (map (date_of (harvest_date (crop s))) hy) (clock_struct s))
         (soil s) (crop s)
         (set_CropChoices (map (fun _ => Name (crop s)) py) (param_struct s)).
Proof.
  intros H.
  assert (Hlen : List.length py = List.length hy).
  { unfold seasons in H. cbn [fst snd] in H.
    destruct (Nat.eqb_spec (List.length py) (List.length hy)) as [E | N];
      [exact E | discriminate H]. }
  assert (Hne : py <> []).
  { intros ->. destruct hy; [| discriminate Hlen]. discriminate H. }
  pose proof H as H0.
  rewrite (seasons_after_assert s py hy Hlen) in H.
  rewrite bind_modify in H.
  apply bind_inv_St in H. destruct H as (pds & s1 & E1 & H).
  apply mapM_lift_inv in E1. destruct E1 as [-> Hvp].
  apply valid_of_parsed in Hvp.
  rewrite bind_modify in H.
  apply bind_inv_St in H. destruct H as (hds & s2 & E2 & _).
  apply mapM_lift_inv in E2. destruct E2 as [-> Hvh].
  apply valid_of_parsed in Hvh.
  rewrite (seasons_run s py hy Hne Hlen Hvp Hvh) in H0.
  injection H0 as <-. auto.
Qed.

(** *** Seasons and the simulated period *)

Lemma date_ltb_year_lt (a b : Date) :
  (year a < year b)%Z -> date_ltb a b = true.
Proof.
  intros H. unfold date_ltb.
  destruct (Z.ltb_spec (year a) (year b)); [reflexivity | lia].
Qed.

Lemma date_ltb_year_gt (a b : Date) :
  (year b < year a)%Z -> date_ltb a b = false.
Proof.
  intros H. unfold date_ltb.
  destruct (Z.ltb_spec (year a) (year b)); [lia |].
  destruct (Z.eqb_spec (year a) (year b)); [lia | reflexivity].
Qed.

Lemma date_leb_false_ltb (y y' m d m' d' : Z) :
  date_leb (mkDate y m d) (mkDate y m' d') = false ->
  date_ltb (mkDate y' m' d') (mkDate y' m d) = true.
Proof.
  unfold date_leb, date_ltb, date_eqb. cbn [year month day].
  rewrite !Z.ltb_irrefl, !Z.eqb_refl. cbn [orb andb].
  destruct (Z.ltb_spec m m'), (Z.eqb_spec m m'), (Z.ltb_spec d d'),
    (Z.eqb_spec d d'), (Z.ltb_spec m' m), (Z.eqb_spec m' m),
    (Z.ltb_spec d' d); cbn [orb andb]; intros Hf;
    try reflexivity; try discriminate Hf; lia.
Qed.

Lemma in_range (a b y : Z) : In y (range a b) <-> (a <= y < b)%Z.
Proof.
  unfold range. rewrite in_map_iff. split.
  - intros (i & <- & Hi). apply in_seq in Hi. lia.
  - intros H. exists (Z.to_nat (y - a)). split; [lia |].
    apply in_seq. lia.
Qed.

Lemma tl_range (a b : Z) : tl (range a b) = range (a + 1) b.
Proof.
  unfold range. destruct (Z.to_nat (b - a)) as [| n] eqn:E.
  - replace (Z.to_nat (b - (a + 1))) with 0%nat by lia. reflexivity.
  - replace (Z.to_nat (b - (a + 1))) with n by lia.
    cbn [seq map tl]. rewrite <- seq_shift, map_map.
    apply map_ext. intros i. lia.
Qed.

Lemma hd_range (a b : Z) : range a b <> [] -> hd 0%Z (range a b) = a.
Proof.
  unfold range. destruct (Z.to_nat (b - a)) as [| n];
    [intros H; contradiction H; reflexivity |].
  intros _. cbn [seq map hd]. lia.
Qed.

(** The years [season_years] hands on: planting years from the first
    simulated year, each planted before the end of the simulation and
    harvested after it is planted. *)
Lemma season_years_window (s s' : State) (py hy : list Z) :
  season_years s = (Ok (py, hy), s') ->
  let p := planting_date (crop s) in
  let h := harvest_date (crop s) in
  let sy := year (simulation_start_date (clock_struct s)) in
  let e := simulation_end_date (clock_struct s) in
  s' = s /\
  exists b g,
    py = range sy b /\ hy = map g py /\
    forall y, In y py ->
      date_ltb (date_of p y) e = true /\
      date_ltb (date_of p y) (date_of h (g y)) = true.
Proof.
  intros H p h sy e. unfold season_years in H. rewrite !bind_gets in H.
  cbv beta in H. fold p in H. fold h in H. fold sy in H. fold e in H.
  apply bind_inv_St in H. destruct H as (p90 & s1 & E1 & H).
  apply lift_inv in E1. destruct E1 as [E1 ->].
  apply to_datetime_inv in E1. destruct E1 as [_ ->].
  apply bind_inv_St in H. destruct H as (h90 & s1 & E2 & H).
  apply lift_inv in E2. destruct E2 as [E2 ->].
  apply to_datetime_inv in E2. destruct E2 as [_ ->].
  destruct (date_ltb (date_of p 1990) (date_of h 1990)) eqn:Hsingle.
  - apply bind_inv_St in H. destruct H as (me & s1 & E3 & H).
    apply lift_inv in E3. destruct E3 as [E3 ->].
    apply to_datetime_inv in E3. destruct E3 as [_ ->].
    apply bind_inv_St in H. destruct H as (ms & s1 & E4 & H).
    apply lift_inv in E4. destruct E4 as [E4 ->].
    apply to_datetime_inv in E4. destruct E4 as [_ ->].
    unfold ret in H. injection H as <- <- <-.
    split; [reflexivity |]. eexists _, (fun y => y).
    split; [reflexivity |]. split; [symmetry; apply map_id |].
    intros y Hy. apply in_range in Hy. split.
    + unfold date_of in *. cbn [md_month md_day] in *.
      destruct (date_leb (mkDate 1990 (month e) (day e))
                  (mkDate 1990 (md_month p) (md_day p))) eqn:Hlast.
      * apply date_ltb_year_lt. cbn [year]. lia.
      * destruct (Z.eq_dec y (year e)) as [-> | Hne].
        -- destruct e as [ye em ed]. cbn [year month day] in *.
           apply (date_leb_false_ltb 1990 ye). exact Hlast.
        -- apply date_ltb_year_lt. cbn [year]. lia.
    + unfold date_of in *. rewrite (date_ltb_same_year y 1990).
      exact Hsingle.
  - apply bind_inv_St in H. destruct H as (h2 & s1 & E3 & H).
    apply lift_inv in E3. destruct E3 as [E3 ->].
    apply to_datetime_inv in E3. destruct E3 as [_ ->].
    unfold date_of in H at 1. rewrite date_ltb_two_years_on in H.
    unfold ret in H. injection H as <- <- <-.
    split; [reflexivity |]. eexists _, Z.succ.
    split; [reflexivity |].
    split; [rewrite <- range_succ; f_equal; lia |].
    intros y Hy. apply in_range in Hy. split.
    + apply date_ltb_year_lt. unfold date_of. cbn [year]. lia.
    + unfold date_of. apply date_ltb_next_year.
Qed.

Lemma first_season_correction_window (s s' : State)
  (py hy py' hy' : list Z) :
  first_season_correction (py, hy) s = (Ok (py', hy'), s') ->
  s' = s /\ py <> [] /\
  ((py' = py /\ hy' = hy /\
    date_ltb (date_of (planting_date (crop s)) (hd 0%Z py))
      (simulation_start_date (clock_struct s)) = false)
   \/ (py' = tl py /\ hy' = tl hy)).
Proof.
  unfold first_season_correction. cbn [fst snd]. intros H.
  apply bind_inv_St in H. destruct H as (y0 & s1 & E1 & H).
  apply lift_inv in E1. destruct E1 as [E1 ->].
  assert (Hne : py <> []) by (intros ->; discriminate E1).
  destruct py as [| y r]; [contradiction Hne; reflexivity |].
  unfold index in E1. cbn [nth_error] in E1. injection E1 as <-.
  rewrite bind_gets in H.
  apply bind_inv_St in H. destruct H as (first & s1 & E2 & H).
  apply lift_inv in E2. destruct E2 as [E2 ->].
  apply to_datetime_inv in E2. destruct E2 as [_ ->].
  rewrite bind_gets in H. cbn [hd].
  destruct (date_ltb (date_of (planting_date (crop s)) y)
              (simulation_start_date (clock_struct s))) eqn:Hlt;
    unfold ret in H; injection H as <- <- <-;
    (split; [reflexivity | split; [exact Hne |]]);
    [right | left]; repeat split; reflexivity.
Qed.

Lemma Forall2_map_same {A B C : Type} (R : B -> C -> Prop) (f : A -> B)
  (g : A -> C) (l : list A) :
  (forall x, In x l -> R (f x) (g x)) -> Forall2 R (map f l) (map g l).
Proof.
  induction l as [| x r IH]; intros H; [constructor |].
  cbn [map]. constructor; [apply H; left; reflexivity |].
  apply IH. intros y Hy. apply H. right. exact Hy.
Qed.

Lemma in_tl {A : Type} (x : A) (l : list A) : In x (tl l) -> In x l.
Proof. destruct l; [intros [] | intros H; right; exact H]. Qed.

(** The scheduling block: years, first-season correction, dates. *)
Lemma schedule_window (s s' : State) :
  (years <- season_years ;;
   years <- first_season_correction years ;;
   seasons years) s = (Ok tt, s') ->
  let c := clock_struct s' in
  crop s' = crop s /\ soil s' = soil s /\
  simulation_start_date c = simulation_start_date (clock_struct s) /\
  simulation_end_date c = simulation_end_date (clock_struct s) /\
  planting_dates c <> [] /\
  n_seasons c = Z.of_nat (List.length (planting_dates c)) /\
  CropChoices (param_struct s')
  = map (fun _ => Name (crop s)) (planting_dates c) /\
  Forall2 (season_in_window c) (planting_dates c) (harvest_dates c).
Proof.
  intros H.
  apply bind_inv_St in H. destruct H as ([py hy] & s1 & E1 & H).
  apply season_years_window in E1.
  destruct E1 as (-> & b & g & Hpy & Hhy & Hwin).
  apply bind_inv_St in H. destruct H as ([py' hy'] & s1 & E2 & H).
  apply first_season_correction_window in E2.
  destruct E2 as (-> & Hne & Hcorr).
  apply seasons_inv in H. destruct H as (Hne' & Hlen & ->).
  cbn [clock_struct crop soil param_struct scheduled
       simulation_start_date simulation_end_date planting_dates
       harvest_dates n_seasons set_CropChoices CropChoices].
  repeat split.
  - destruct py'; [contradiction Hne'; reflexivity | discriminate].
  - rewrite map_map. reflexivity.
  - assert (Hhy' : hy' = map g py').
    { destruct Hcorr as [(-> & -> & _) | (-> & ->)]; [exact Hhy |].
      rewrite Hhy. destruct py; reflexivity. }
    rewrite Hhy', map_map.
    apply Forall2_map_same. intros y Hy.
    assert (Hin : In y py).
    { destruct Hcorr as [(-> & _) | (-> & _)];
        [exact Hy | apply in_tl; exact Hy]. }
    destruct (Hwin y Hin) as [Hend Hlt].
    unfold season_in_window, scheduled.
    cbn [simulation_start_date simulation_end_date].
    split; [| split; [exact Hend | exact Hlt]].
    destruct Hcorr as [(-> & _ & Hfirst) | (-> & _)].
    + rewrite Hpy in Hfirst, Hy. rewrite hd_range in Hfirst
        by (rewrite <- Hpy; exact Hne).
      apply in_range in Hy.
      destruct (Z.eq_dec y (year (simulation_start_date (clock_struct s))))
        as [-> | Hgt]; [exact Hfirst |].
      apply date_ltb_year_gt. unfold date_of. cbn [year]. lia.
    + rewrite Hpy, tl_range in Hy. apply in_range in Hy.
      apply date_ltb_year_gt. unfold date_of. cbn [year]. lia.
Qed.

(** X15: when the set-up returns, the clock it returns holds at least one
    season; every season is planted on or after the first and before the
    last simulated day, and harvested after it is planted; the season
    count and the crop choices have one entry per planting date. *)
Theorem returned_seasons_lie_in_the_simulated_period
  {collaborators : Collaborators} (fuel : nat) (clk : ClockStruct)
  (soil0 : Soil) (c : Crop) (weather_df : Weather)
  (clk' : ClockStruct) (ps' : ParamStruct) (s' : State) :
  read_model_parameters fuel clk soil0 c weather_df
  = Some (Ok (clk', ps'), s') ->
  planting_dates clk' <> [] /\
  n_seasons clk' = Z.of_nat (List.length (planting_dates clk')) /\
  List.length (CropChoices ps') = List.length (planting_dates clk') /\
  Forall2 (season_in_window clk') (planting_dates clk') (harvest_dates clk').
Proof.
  intros H. unfold read_model_parameters in H.
  destruct (soil_depth_loop fuel (Zmax c) (fill_nan soil0)) as [soil' |];
    [| discriminate H].
  injection H as H. unfold finalise in H.
  rewrite bind_modify, !bind_gets, bind_modify in H.
  apply bind_inv_St in H. destruct H as ([] & s1 & _ & H).
  apply bind_inv_St in H. destruct H as ([py hy] & s2 & E1 & H).
  apply bind_inv_St in H. destruct H as ([py' hy'] & s3 & E2 & H).
  apply bind_inv_St in H. destruct H as ([] & s4 & E3 & H).
  unfold gets in H. injection H as <- <- <-.
  assert (Hrun : (years <- season_years ;;
                  years <- first_season_correction years ;;
                  seasons years) s1 = (Ok tt, s4)).
  { rewrite (bind_ok _ _ _ _ _ E1). rewrite (bind_ok _ _ _ _ _ E2).
    exact E3. }
  apply schedule_window in Hrun.
  destruct Hrun as (_ & _ & _ & _ & Hne & Hn & Hcc & Hall).
  repeat split; try assumption.
  rewrite Hcc, length_map. reflexivity.
Qed.

(** Maize planted on 1 May over 2000 to 2002: three seasons. *)
Lemma returned_seasons_lie_in_the_simulated_period_witness :
  exists clk' ps' s',
    @read_model_parameters crop_only_helpers 10 example_clock example_soil
      (example_crop 2 0 0 []) tt = Some (Ok (clk', ps'), s') /\
    planting_dates clk' <> [] /\
    n_seasons clk' = Z.of_nat (List.length (planting_dates clk')) /\
    List.length (CropChoices ps') = List.length (planting_dates clk') /\
    Forall2 (season_in_window clk') (planting_dates clk') (harvest_dates clk').
Proof.
  eexists _, _, _. split; [vm_compute; reflexivity |].
  eapply (@returned_seasons_lie_in_the_simulated_period crop_only_helpers 10
            example_clock example_soil (example_crop 2 0 0 []) tt).
  vm_compute. reflexivity.
Defined.

(** *** Simulations too short for a season *)

Lemma range_empty (a b : Z) : (b <= a)%Z -> range a b = [].
Proof.
  intros H. unfold range. replace (Z.to_nat (b - a)) with 0%nat by lia.
  reflexivity.
Qed.

Lemma range_one (a : Z) : range a (a + 1) = [a].
Proof.
  unfold range. replace (Z.to_nat (a + 1 - a)) with 1%nat by lia.
  cbn [seq map]. f_equal. lia.
Qed.

(** X16: a crop whose season runs over the end of the year cannot be
    simulated within one calendar year: there is no planting year, reading
    the first one raises IndexError, and nothing has been stored. *)
Theorem cross_year_crop_within_one_year_raises (s : State) :
  let p := planting_date (crop s) in
  let h := harvest_date (crop s) in
  valid_date 1990 (md_month p) (md_day p) = true ->
  valid_date 1990 (md_month h) (md_day h) = true ->
  date_ltb (mkDate 1990 (md_month p) (md_day p))
    (mkDate 1990 (md_month h) (md_day h)) = false ->
  (year (simulation_end_date (clock_struct s))
   <= year (simulation_start_date (clock_struct s)))%Z ->
  (years <- season_years ;;
   years <- first_season_correction years ;;
   seasons years) s = (Raise IndexError, s).
Proof.
  intros p h Hp Hh Hcross Hyear.
  assert (Hyears : season_years s = (Ok ([], []), s)).
  { unfold season_years. rewrite !bind_gets. cbv beta. fold p. fold h.
    rewrite (to_datetime_ok 1990 p Hp), bind_lift_ok.
    rewrite (to_datetime_ok 1990 h Hh), bind_lift_ok.
    rewrite Hcross.
    rewrite (to_datetime_ok _ h (valid_in_1990_valid_in_any_year _ _ _ Hh)),
      bind_lift_ok.
    rewrite date_ltb_two_years_on.
    rewrite !range_empty by lia. reflexivity. }
  rewrite (bind_ok _ _ _ _ _ Hyears). reflexivity.
Qed.

(** Planted on 1 November and harvested on 1 April, over the year 2000. *)
Lemma cross_year_crop_within_one_year_raises_witness :
  let s := mkState
             (mkClock (mkDate 2000 1 1) (mkDate 2000 12 31) (mkDate 2000 1 1)
                [] [] [] 0 0)
             example_grown_soil
             (mkCrop "Wheat" 1 2 0 0 100 (mkMonthDay 11 1) (mkMonthDay 4 1)
                [] [] [] [] [] [] 0 0 0 0)
             new_ParamStruct in
  (years <- season_years ;;
   years <- first_season_correction years ;;
   seasons years) s = (Raise IndexError, s).
Proof.
  intros s. apply (cross_year_crop_within_one_year_raises s);
    [reflexivity | reflexivity | reflexivity | cbn; lia].
Defined.

Lemma seasons_none (s : State) :
  seasons ([], []) s = (Raise IndexError, without_seasons s).
Proof. reflexivity. Qed.

(** X17: a crop sown and harvested in the same year, simulated within one
    calendar year from a day after its planting day: the only season is
    dropped as partial, the empty lists of dates and crop choices and a
    season count of zero are stored, and reading the first planting date
    then raises IndexError. *)
Theorem only_season_partial_raises_after_storing (s : State) :
  let b := simulation_start_date (clock_struct s) in
  let e := simulation_end_date (clock_struct s) in
  let p := planting_date (crop s) in
  let h := harvest_date (crop s) in
  valid_date 1990 (md_month p) (md_day p) = true ->
  valid_date 1990 (md_month h) (md_day h) = true ->
  valid_date 1990 (month e) (day e) = true ->
  valid_date (year b) (md_month p) (md_day p) = true ->
  date_ltb (mkDate 1990 (md_month p) (md_day p))
    (mkDate 1990 (md_month h) (md_day h)) = true ->
  year e = year b ->
  date_ltb (date_of p (year b)) b = true ->
  date_leb e (date_of p (year e)) = false ->
  (years <- season_years ;;
   years <- first_season_correction years ;;
   seasons years) s = (Raise IndexError, without_seasons s).
Proof.
  intros b e p h Hp Hh He Hpb Hsingle Hyear Hlate Hlast.
  assert (Hyears : season_years s = (Ok ([year b], [year b]), s)).
  { unfold season_years. rewrite !bind_gets. cbv beta.
    fold b. fold e. fold p. fold h.
    rewrite (to_datetime_ok 1990 p Hp), bind_lift_ok.
    rewrite (to_datetime_ok 1990 h Hh), bind_lift_ok.
    rewrite Hsingle.
    rewrite (to_datetime_ok 1990 (mkMonthDay (month e) (day e)) He),
      bind_lift_ok.
    rewrite bind_lift_ok. cbn [md_month md_day].
    assert (Hleb : date_leb (mkDate 1990 (month e) (day e))
                     (mkDate 1990 (md_month p) (md_day p)) = false).
    { rewrite <- Hlast. unfold date_of. destruct e as [ye me de].
      cbn [year month day]. apply date_leb_same_year. }
    rewrite Hleb, Hyear, range_one. reflexivity. }
  rewrite (bind_ok _ _ _ _ _ Hyears).
  rewrite (bind_ok _ _ _ _ _
             (first_season_correction_drops s [year b] [year b] (year b) []
                eq_refl Hpb Hlate)).
  apply seasons_none.
Qed.

(** Maize planted on 1 May, simulated from 1 June to 31 December 2000. *)
Lemma only_season_partial_raises_after_storing_witness :
  let s := mkState
             (mkClock (mkDate 2000 6 1) (mkDate 2000 12 31) (mkDate 2000 6 1)
                [] [] [] 0 0)
             example_grown_soil (example_crop 2 0 0 []) new_ParamStruct in
  (years <- season_years ;;
   years <- first_season_correction years ;;
   seasons years) s = (Raise IndexError, without_seasons s).
Proof.
  intros s. apply (only_season_partial_raises_after_storing s); reflexivity.
Defined.

(** *** The errors of the scheduling *)

Lemma bind_raise_inv {S A B : Type} (m : St S A) (k : A -> St S B)
  (s s' : S) (e : exn) :
  bind m k s = (Raise e, s') ->
  m s = (Raise e, s') \/ exists a s1, m s = (Ok a, s1) /\ k a s1 = (Raise e, s').
Proof.
  unfold bind. destruct (m s) as [[a | e0] s1]; intros H.
  - right. exists a, s1. split; [reflexivity | exact H].
  - left. injection H as -> ->. reflexivity.
Qed.

Lemma to_datetime_raise (y : Z) (md : MonthDay) (e : exn) :
  to_datetime y md = Raise e -> date_or_index_error e.
Proof.
  unfold to_datetime. destruct (valid_date _ _ _); intros H;
    [discriminate H |]. injection H as <-. right. eexists. reflexivity.
Qed.

Lemma lift_to_datetime_raise {S : Type} (y : Z) (md : MonthDay) (s s' : S)
  (e : exn) :
  lift (to_datetime y md) s = (Raise e, s') -> date_or_index_error e.
Proof.
  unfold lift. intros H. injection H as H _.
  apply (to_datetime_raise y md). exact H.
Qed.

Lemma lift_index_raise {S A : Type} (l : list A) (i : nat) (s s' : S)
  (e : exn) :
  lift (index l i) s = (Raise e, s') -> date_or_index_error e.
Proof.
  unfold lift, index. destruct (nth_error l i); intros H;
    [discriminate H |]. injection H as <- _. left. reflexivity.
Qed.

Lemma mapM_to_datetime_raise {S : Type} (l : list (Z * MonthDay)) (s s' : S)
  (e : exn) :
  mapM (fun ym => lift (to_datetime (fst ym) (snd ym))) l s = (Raise e, s') ->
  date_or_index_error e.
Proof.
  induction l as [| x r IH]; intros H; cbn [mapM] in H; [discriminate H |].
  apply bind_raise_inv in H.
  destruct H as [H | (d & s1 & E & H)];
    [apply lift_to_datetime_raise in H; exact H |].
  apply lift_inv in E. destruct E as [_ ->].
  apply bind_raise_inv in H.
  destruct H as [H | (ds & s1 & _ & H)]; [exact (IH H) | discriminate H].
Qed.

Lemma season_years_raise (s s' : State) (e : exn) :
  season_years s = (Raise e, s') -> date_or_index_error e.
Proof.
  unfold season_years. rewrite !bind_gets. cbv beta. intros H.
  repeat first
    [ apply bind_raise_inv in H;
      destruct H as [H | (? & ? & _ & H)];
      [apply lift_to_datetime_raise in H; exact H |]
    | match type of H with
      | context [if ?b then _ else _] => destruct b
      end ];
    discriminate H.
Qed.

Lemma first_season_correction_raise (s s' : State) (years : list Z * list Z)
  (e : exn) :
  first_season_correction years s = (Raise e, s') -> date_or_index_error e.
Proof.
  unfold first_season_correction. intros H.
  apply bind_raise_inv in H.
  destruct H as [H | (y0 & s1 & _ & H)];
    [apply lift_index_raise in H; exact H |].
  rewrite bind_gets in H. apply bind_raise_inv in H.
  destruct H as [H | (d & s2 & _ & H)];
    [apply lift_to_datetime_raise in H; exact H |].
  rewrite bind_gets in H.
  destruct (date_ltb d _); discriminate H.
Qed.

Lemma seasons_raise (s s' : State) (py hy : list Z) (e : exn) :
  List.length py = List.length hy ->
  seasons (py, hy) s = (Raise e, s') -> date_or_index_error e.
Proof.
  intros Hlen H. rewrite (seasons_after_assert s py hy Hlen) in H.
  rewrite bind_modify in H. apply bind_raise_inv in H.
  destruct H as [H | (pds & s1 & _ & H)];
    [apply mapM_to_datetime_raise in H; exact H |].
  rewrite bind_modify in H. apply bind_raise_inv in H.
  destruct H as [H | (hds & s2 & _ & H)];
    [apply mapM_to_datetime_raise in H; exact H |].
  rewrite !bind_modify, !bind_gets in H. apply bind_raise_inv in H.
  destruct H as [H | (d & s3 & _ & H)];
    [apply lift_index_raise in H; exact H |].
  destruct (date_eqb _ d); discriminate H.
Qed.

(** X18: whatever the clock and the crop, the scheduling of seasons ends
    in no error other than a ValueError for a date that does not exist or
    an IndexError for a season that is not there; in particular the
    assertion that there are as many planting as harvest years never
    fails. *)
Theorem scheduling_errors_are_date_or_index_errors (s s' : State) (e : exn) :
  (years <- season_years ;;
   years <- first_season_correction years ;;
   seasons years) s = (Raise e, s') ->
  date_or_index_error e /\ e <> AssertionError.
Proof.
  intros H.
  assert (He : date_or_index_error e).
  { apply bind_raise_inv in H.
    destruct H as [H | ([py hy] & s1 & E1 & H)];
      [apply season_years_raise in H; exact H |].
    pose proof (season_years_lengths _ _ _ _ E1) as Hlen.
    apply bind_raise_inv in H.
    destruct H as [H | ([py' hy'] & s2 & E2 & H)];
      [apply first_season_correction_raise in H; exact H |].
    apply first_season_correction_window in E2.
    destruct E2 as (_ & _ & [(-> & -> & _) | (-> & ->)]).
    - apply (seasons_raise s2 s' py hy e Hlen H).
    - apply (seasons_raise s2 s' (tl py) (tl hy)); [| exact H].
      destruct py, hy; cbn [tl List.length] in *; lia. }
  split; [exact He |].
  destruct He as [-> | [msg ->]]; discriminate.
Qed.

(** 29 February as planting day: the date does not exist in 1990. *)
Lemma scheduling_errors_are_date_or_index_errors_witness :
  let s := mkState example_clock example_grown_soil
             (mkCrop "Wheat" 1 2 0 0 100 (mkMonthDay 2 29) (mkMonthDay 9 1)
                [] [] [] [] [] [] 0 0 0 0)
             new_ParamStruct in
  date_or_index_error (ValueError "day is out of range for month")
  /\ ValueError "day is out of range for month" <> AssertionError.
Proof.
  intros s.
  apply (scheduling_errors_are_date_or_index_errors s s). reflexivity.
Defined.

End ReadModelParametersProofs.
